(** * Claims pipeline: damage assessment, claim formatting, submission
      tracking and contractor payment

    A shallow embedding of [damage_assessment.py], [xactimate_integration.py]
    and [payment_processing.py], with the file-name check of
    [photo_collection_api.py].  Python floats are IEEE-754 binary64 values,
    so they are embedded as Rocq's primitive floats, whose operations are the
    same correctly rounded binary64 operations; Python integers are [Z].
    Directories of JSON records are finite maps from file names to parsed
    records, and the three sources of nondeterminism of the scripts (the
    pseudo-random generator, [uuid.uuid4] and [datetime.now]) are explicit
    inputs.

    A JSON record is embedded as a Rocq record.  A key that its readers
    fetch with [dict.get] and that some writer may leave out is an optional
    field; a file that does not parse is [None] in its directory.  Writing a
    file is assumed to succeed; the scripts log a failed write and go on.
    Logging and [time.sleep] have no counterpart. *)

From Stdlib Require Import ZArith Bool List String Ascii Lia.
From Stdlib Require Import PrimFloat SpecFloat.
From Stdlib Require FloatOps FloatAxioms.
From stdpp Require Import base option list strings pretty gmap fin_maps.

Local Open Scope string_scope.
Local Open Scope Z_scope.

(** ** Python values and arithmetic *)

Module Py.

(** Exceptions the modelled code can raise. *)
Inductive exn : Type :=
| ValueError | TypeError | AttributeError | KeyError | IndexError
| ZeroDivisionError | OverflowError.

(** A computation either returns a value or raises. *)
Inductive result (A : Type) : Type :=
| Ok (a : A)
| Raise (e : exn).
Arguments Ok {A} a.
Arguments Raise {A} e.

Definition bind {A B : Type} (r : result A) (k : A -> result B) : result B :=
  match r with
  | Ok a => k a
  | Raise e => Raise e
  end.

Notation "x <- m ; k" := (bind m (fun x => k))
  (at level 20, m at level 100, k at level 200, only parsing).

Definition is_ok {A : Type} (r : result A) : bool :=
  match r with Ok _ => true | Raise _ => false end.

(** A Python number: an [int] of unbounded size or a binary64 [float]. *)
Inductive pynum : Type :=
| PInt (z : Z)
| PFloat (f : float).

Definition prec : Z := FloatOps.prec.
Definition emax : Z := FloatOps.emax.

(** The integer [z] as a (possibly unnormalised) binary float [z * 2^0]. *)
Definition Z2SF (z : Z) : spec_float :=
  match z with
  | Z0 => S754_zero false
  | Zpos p => S754_finite false p 0
  | Zneg p => S754_finite true p 0
  end.

(** [float(z)]: the nearest binary64 value, ties to even; infinite when [z]
    is out of range. *)
Definition float_of_Z (z : Z) : float :=
  FloatOps.SF2Prim (binary_normalize prec emax z 0 false).

(** Conversion of an operand to [float] in mixed arithmetic; Python raises
    [OverflowError] for an [int] too large for a float. *)
Definition to_float (x : pynum) : result float :=
  match x with
  | PFloat f => Ok f
  | PInt z =>
      let f := float_of_Z z in
      if is_infinity f then Raise OverflowError else Ok f
  end.

(** The value of an f-string: its literal pieces and the numbers it
    interpolates, in order.  The decimal text of an interpolated number is
    not computed. *)
Inductive piece : Type :=
| Lit (s : string)
| Num (x : pynum).

Definition fstring : Type := list piece.

(** [x + y] *)
Definition add (x y : pynum) : result pynum :=
  match x, y with
  | PInt a, PInt b => Ok (PInt (a + b))
  | _, _ =>
      fx <- to_float x ;
      fy <- to_float y ;
      Ok (PFloat (fx + fy)%float)
  end.

(** [x * y] *)
Definition mul (x y : pynum) : result pynum :=
  match x, y with
  | PInt a, PInt b => Ok (PInt (a * b))
  | _, _ =>
      fx <- to_float x ;
      fy <- to_float y ;
      Ok (PFloat (fx * fy)%float)
  end.

(** [a / b] on two ints: the exact quotient rounded once; a zero divisor
    raises [ZeroDivisionError]. *)
Definition int_truediv (a b : Z) : result float :=
  if (b =? 0)%Z then Raise ZeroDivisionError
  else
    let q := FloatOps.SF2Prim (SFdiv prec emax (Z2SF a) (Z2SF b)) in
    if is_infinity q then Raise OverflowError else Ok q.

(** The builtin [sum]: a left fold of [+] starting from the int [0]. *)
Fixpoint sum_from (acc : pynum) (l : list pynum) : result pynum :=
  match l with
  | [] => Ok acc
  | x :: l' => acc' <- add acc x ; sum_from acc' l'
  end.

Definition sum (l : list pynum) : result pynum := sum_from (PInt 0) l.

(** [x / len(l)] with [n] the length: an int by an int, or a float by the
    length taken as a float.  A length is at most [sys.maxsize], far inside
    the float range, so converting it cannot overflow, and it is zero only
    for the empty list. *)
Definition div_len (x : pynum) (n : nat) : result float :=
  match n with
  | O => Raise ZeroDivisionError
  | S _ =>
      match x with
      | PInt a => int_truediv a (Z.of_nat n)
      | PFloat f => Ok (f / float_of_Z (Z.of_nat n))%float
      end
  end.

(** [sum(l) / len(l)] *)
Definition mean (l : list pynum) : result float :=
  s <- sum l ; div_len s (length l).

(** The integer nearest to [n / 2^k], ties to the even neighbour. *)
Definition round_half_even_shift (n : Z) (k : Z) : Z :=
  let d := 2 ^ k in
  let q := n / d in
  let r := n mod d in
  match (2 * r ?= d)%Z with
  | Lt => q
  | Gt => q + 1
  | Eq => if Z.even q then q else q + 1
  end.

(** [round(x, 2)] on a float: the exact value of [x] is rounded to the
    nearest multiple of 1/100 (ties to even) and that decimal is converted
    back to the nearest binary64 value.  Infinities, NaN, zeros and integral
    values are returned unchanged. *)
Definition round2 (x : float) : float :=
  match FloatOps.Prim2SF x with
  | S754_finite s m e =>
      if (0 <=? e)%Z then x
      else
        let q := round_half_even_shift (100 * Zpos m) (- e) in
        let r :=
          match q with
          | Zpos p => SFdiv prec emax (S754_finite s p 0) (S754_finite false 100 0)
          | _ => S754_zero s
          end in
        FloatOps.SF2Prim r
  | _ => x
  end.

End Py.

(** ** Dates and times *)

Module DateTime.

(** A naive [datetime]: calendar fields as Python stores them.  The ISO
    strings written to the JSON files are in one-to-one correspondence with
    these records, so a stored time stamp is modelled by the record. *)
Record datetime : Type := mk_datetime {
  year : Z; month : Z; day : Z;
  hour : Z; minute : Z; second : Z; microsecond : Z
}.

Definition is_leap (y : Z) : bool :=
  (y mod 4 =? 0) && (negb (y mod 100 =? 0) || (y mod 400 =? 0)).

Definition days_in_month (y m : Z) : Z :=
  if (m =? 2) then (if is_leap y then 29 else 28)
  else if (m =? 4) || (m =? 6) || (m =? 9) || (m =? 11) then 30
  else 31.

Definition days_before_year (y : Z) : Z :=
  let y' := y - 1 in
  y' * 365 + y' / 4 - y' / 100 + y' / 400.

Definition days_before_month (y m : Z) : Z :=
  nth (Z.to_nat m) [-1; 0; 31; 59; 90; 120; 151; 181; 212; 243; 273; 304; 334] 0
  + (if (2 <? m) && is_leap y then 1 else 0).

(** Proleptic Gregorian ordinal of a date (1 for 0001-01-01). *)
Definition ymd2ord (y m d : Z) : Z :=
  days_before_year y + days_before_month y m + d.

(** Microseconds since the start of day 0. *)
Definition to_microseconds (t : datetime) : Z :=
  (((ymd2ord (year t) (month t) (day t) * 24 + hour t) * 60 + minute t) * 60
   + second t) * 1000000 + microsecond t.

(** [(a - b).days]: a [timedelta] is normalised with its seconds and
    microseconds non-negative, so [days] is the floor of the difference. *)
Definition sub_days (a b : datetime) : Z :=
  (to_microseconds a - to_microseconds b) / 86400000000.

(** [t.replace(day=d)]; the constructor rejects a day outside the month. *)
Definition replace_day (t : datetime) (d : Z) : Py.result datetime :=
  if (1 <=? d) && (d <=? days_in_month (year t) (month t)) then
    Py.Ok (mk_datetime (year t) (month t) d
             (hour t) (minute t) (second t) (microsecond t))
  else Py.Raise Py.ValueError.

Definition fields (t : datetime) : list Z :=
  [year t; month t; day t; hour t; minute t; second t; microsecond t].

Fixpoint lex_leb (a b : list Z) : bool :=
  match a, b with
  | [], _ => true
  | _ :: _, [] => false
  | x :: a', y :: b' => (x <? y) || ((x =? y) && lex_leb a' b')
  end.

(** [a <= b] on datetimes: field by field, most significant first. *)
Definition leb (a b : datetime) : bool := lex_leb (fields a) (fields b).

(** A calendar date [YYYY-MM-DD] and the two instants the report derives
    from it: [date + 'T00:00:00'] and [date + 'T23:59:59']. *)
Record date : Type := mk_date { d_year : Z; d_month : Z; d_day : Z }.

Definition start_of_day (d : date) : datetime :=
  mk_datetime (d_year d) (d_month d) (d_day d) 0 0 0 0.

Definition end_of_day (d : date) : datetime :=
  mk_datetime (d_year d) (d_month d) (d_day d) 23 59 59 0.

(** The text [YYYY-MM-DD] of a date. *)
Definition pad (width : nat) (z : Z) : string :=
  let digits := pretty.pretty z in
  String.concat "" (repeat "0" (width - String.length digits)) +:+ digits.

Definition iso_date (d : date) : string :=
  pad 4 (d_year d) +:+ "-" +:+ pad 2 (d_month d) +:+ "-" +:+ pad 2 (d_day d).

(** Parsing [iso.split('.')[0]]: the fractional seconds are dropped. *)
Definition drop_fraction (t : datetime) : datetime :=
  mk_datetime (year t) (month t) (day t) (hour t) (minute t) (second t) 0.

End DateTime.

(** ** Text *)

Module Text.

Definition lower_ascii (c : ascii) : ascii :=
  let n := nat_of_ascii c in
  if (65 <=? n)%nat && (n <=? 90)%nat then ascii_of_nat (n + 32) else c.

Definition upper_ascii (c : ascii) : ascii :=
  let n := nat_of_ascii c in
  if (97 <=? n)%nat && (n <=? 122)%nat then ascii_of_nat (n - 32) else c.

Fixpoint map_string (f : ascii -> ascii) (s : string) : string :=
  match s with
  | EmptyString => EmptyString
  | String c s' => String (f c) (map_string f s')
  end.

(** [s.lower()], [s.upper()] and [s.capitalize()] on ASCII text (case
    mappings of other scripts are left unchanged). *)
Definition lower (s : string) : string := map_string lower_ascii s.
Definition upper (s : string) : string := map_string upper_ascii s.
Definition capitalize (s : string) : string :=
  match s with
  | EmptyString => EmptyString
  | String c s' => String (upper_ascii c) (lower s')
  end.

(** [s.startswith(p)] and [s.endswith(p)]. *)
Definition startswith (s p : string) : bool := String.prefix p s.

Definition endswith (s p : string) : bool :=
  let n := String.length s in
  let k := String.length p in
  (k <=? n)%nat && String.eqb (String.substring (n - k) k s) p.

(** [str(z)] for an int. *)
Definition str_int (z : Z) : string := pretty.pretty z.

End Text.

(** ** The pseudo-random generator *)

Module Random.

(** The generator is a tape of raw draws: entry [i] decides the outcome of
    the [i]-th call made to it.  Every behaviour of the real generator is the
    behaviour of some tape. *)
Definition tape : Type := nat -> Z.

(** A computation that consumes draws: it reads the tape from a position and
    returns the next position. *)
Definition M (A : Type) : Type := tape -> nat -> A * nat.

Definition ret {A : Type} (a : A) : M A := fun _ i => (a, i).

Definition draw {A B : Type} (m : M A) (k : A -> M B) : M B :=
  fun t i => let '(a, j) := m t i in k a t j.

Notation "x <~ m ; k" := (draw m (fun x => k))
  (at level 20, m at level 100, k at level 200, only parsing).

(** An integer in [0, n). *)
Definition randbelow (n : Z) : M Z := fun t i => (t i mod n, S i).

(** [random.randint(a, b)]: an integer in [a, b]. *)
Definition randint (a b : Z) : M Z :=
  r <~ randbelow (b - a + 1) ; ret (a + r).

(** [random.choice(seq)] for a non-empty sequence. *)
Definition choice {A : Type} (d : A) (seq : list A) : M A :=
  r <~ randbelow (Z.of_nat (length seq)) ; ret (nth (Z.to_nat r) seq d).

(** [random.random()]: a multiple of 2^-53 in [0, 1). *)
Definition random : M float :=
  fun t i => ((Py.float_of_Z (t i mod 2 ^ 53) * 0x1p-53)%float, S i).

(** [random.uniform(a, b)] is [a + (b - a) * random()]. *)
Definition uniform (a b : float) : M float :=
  u <~ random ; ret (a + (b - a) * u)%float.

(** [random.sample(population, k)] for a short population: [k] picks without
    replacement from a pool, the hole left by a pick being filled with the
    last live element. *)
Fixpoint sample_loop {A : Type} (d : A) (pool : list A) (n : nat) (k : nat)
  : M (list A) :=
  match k with
  | O => ret []
  | S k' =>
      j <~ randbelow (Z.of_nat n) ;
      let x := nth (Z.to_nat j) pool d in
      let pool' := <[Z.to_nat j := nth (n - 1) pool d]> pool in
      rest <~ sample_loop d pool' (n - 1) k' ;
      ret (x :: rest)
  end.

Definition sample {A : Type} (d : A) (population : list A) (k : Z) : M (list A) :=
  sample_loop d population (length population) (Z.to_nat k).

End Random.

(** ** Insertion-ordered dictionaries with string keys *)

Module Dict.

Definition odict (V : Type) : Type := list (string * V).

Definition get {V : Type} (k : string) (d : odict V) : option V :=
  snd <$> List.find (fun p => String.eqb k (fst p)) d.

(** [d[k] = v]: an existing key keeps its position, a new key goes last. *)
Fixpoint set {V : Type} (k : string) (v : V) (d : odict V) : odict V :=
  match d with
  | [] => [(k, v)]
  | (k', v') :: d' =>
      if String.eqb k k' then (k, v) :: d' else (k', v') :: set k v d'
  end.

Definition keys {V : Type} (d : odict V) : list string := map fst d.
Definition values {V : Type} (d : odict V) : list V := map snd d.

End Dict.

(** ** The environment of one call *)

(** What a call reads from outside the record stores: the random tape, the
    identifier returned by [uuid.uuid4()] and the successive readings of
    [datetime.now()] ([clock k] is the [k]-th reading made by the call). *)
Record env : Type := mk_env {
  rand : Random.tape;
  uuid4 : string;
  clock : nat -> DateTime.datetime
}.

(** The environment left to the rest of a call after [k] readings of the
    clock. *)
Definition after_readings (k : nat) (e : env) : env :=
  mk_env (rand e) (uuid4 e) (fun n => clock e (k + n)%nat).

(** ** Damage assessor and job aggregator ([damage_assessment.py]) *)

Module Assess.

Import Py DateTime.

(** The [damage_type] entry of a photo's metadata: the intake stores the
    form field, which is a string, or [null] when the form has no such field;
    hand-made metadata may lack the key. *)
Inductive hint : Type :=
| HintAbsent
| HintNull
| HintStr (s : string).

(** Per-category estimate of an assessment. *)
Record details : Type := mk_details {
  severity : float;
  confidence : float;
  area_percentage : option float
}.

(** A category-specific measurement block.  It is a JSON object whose keys
    depend on the category; every key may be missing, as the readers use
    [dict.get] with a default. *)
Record measurement : Type := mk_measurement {
  area_sqft : option pynum;
  pitch : option string;
  material : option string;
  damage_percentage : option pynum;
  affected_components : option (list string);
  severity_tier : option string;        (* key 'severity' of a structural block *)
  affected_area_sqft : option pynum;
  depth_inches : option pynum;
  category : option pynum;
  volume_cubic_yards : option pynum;
  debris_type : option string           (* key 'type' of a debris block *)
}.

Definition roof_block (a : pynum) (p m : string) (d : pynum) : measurement :=
  mk_measurement (Some a) (Some p) (Some m) (Some d)
                 None None None None None None None.

Definition siding_block (a : pynum) (m : string) (d : pynum) : measurement :=
  mk_measurement (Some a) None (Some m) (Some d)
                 None None None None None None None.

Definition structural_block (cs : list string) (sv : string) : measurement :=
  mk_measurement None None None None (Some cs) (Some sv)
                 None None None None None.

Definition water_block (a d c : pynum) : measurement :=
  mk_measurement None None None None None None
                 (Some a) (Some d) (Some c) None None.

Definition debris_block (v : pynum) (t : string) : measurement :=
  mk_measurement None None None None None None None None None
                 (Some v) (Some t).

(** One photo's metadata record. *)
Record metadata : Type := mk_metadata {
  photo_id : option string;
  job_id : option string;
  damage_type : hint;
  processing_status : option string;
  assessment_id : option string;
  assessment_timestamp : option datetime;
  md_overall_severity : option float;
  md_overall_confidence : option float;
  detected_damage_types : option (list string)
}.

(** The Assessor's output for one photo. *)
Record assessment : Type := mk_assessment {
  a_photo_id : string;
  a_job_id : string;
  a_assessment_id : string;
  a_timestamp : datetime;
  damage_assessment : Dict.odict details;
  xactimate_measurements : Dict.odict measurement;
  overall_severity : float;
  overall_confidence : float
}.

(** Per-category aggregate of a job summary. *)
Record summary_entry : Type := mk_summary_entry {
  se_severity : float;
  se_confidence : float;
  se_area_percentage : float;
  photo_count : Z
}.

Record job_summary : Type := mk_job_summary {
  s_job_id : string;
  assessment_count : Z;
  s_timestamp : datetime;
  damage_summary : Dict.odict summary_entry;
  xactimate_summary : Dict.odict (list measurement);
  s_overall_severity : float;
  s_overall_confidence : float;
  xactimate_ready : bool
}.

(** The upload store: the [metadata] directory (absent, or a map from file
    name to the parsed record, [None] for a file that does not parse) and the
    per-job photo directories with their listings. *)
Record photo_store : Type := mk_photo_store {
  metadata_dir : option (gmap string (option metadata));
  job_dirs : gmap string (list string)
}.

(** A file of a job's report directory. *)
Inductive report_doc : Type :=
| DocAssessment (a : assessment)
| DocSummary (s : job_summary).

(** The report store: job id to directory, directory as file name to parsed
    file ([None] for a file that does not parse). *)
Abbreviation report_store := (gmap string (gmap string (option report_doc))).

(** A pending photo as the scan reports it.  Paths are relative: the
    metadata path is the file's name in the metadata directory, the photo
    path is [job/file] under the upload directory. *)
Record photo_info : Type := mk_photo_info {
  pi_photo_id : string;
  pi_job_id : string;
  metadata_path : string;
  photo_path : string;
  pi_metadata : metadata
}.

(** *** [get_pending_photos] *)

(** The guard of the scan: the status key is missing or holds ['pending']. *)
Definition is_pending (md : metadata) : bool :=
  match processing_status md with
  | None => true
  | Some s => String.eqb s "pending"
  end.

(** The search for the photo file: the first entry of the job's upload
    directory whose name starts with the photo id.  A missing job or photo id
    makes the path operations raise, which the scan catches per record. *)
Definition find_photo (st : photo_store) (md : metadata) : option string :=
  match job_id md, photo_id md with
  | Some j, Some p =>
      match job_dirs st !! j with
      | Some listing =>
          (fun f => j +:+ "/" +:+ f) <$>
            List.find (fun f => Text.startswith f p) listing
      | None => None
      end
  | _, _ => None
  end.

Definition pending_entry (st : photo_store) (entry : string * option metadata)
  : option photo_info :=
  let '(filename, parsed) := entry in
  if Text.endswith filename ".json" then
    match parsed with
    | Some md =>
        if is_pending md then
          match find_photo st md, photo_id md, job_id md with
          | Some path, Some p, Some j =>
              Some (mk_photo_info p j filename path md)
          | _, _, _ => None
          end
        else None
    | None => None
    end
  else None.

Definition get_pending_photos (st : photo_store) : list photo_info :=
  match metadata_dir st with
  | None => []
  | Some dir => omap (pending_entry st) (map_to_list dir)
  end.

(** *** [analyze_photo] *)

Import Random.

Definition damage_types : list string :=
  ["roof"; "siding"; "structural"; "water"; "debris"].

Definition str_in (x : string) (l : list string) : bool :=
  existsb (String.eqb x) l.

(** [metadata.get('damage_type', 'Unknown').lower()]: the default applies
    to a missing key only, and [None] has no method [lower]. *)
Definition reported_damage_type (md : metadata) : result string :=
  match damage_type md with
  | HintAbsent => Ok (Text.lower "Unknown")
  | HintNull => Raise AttributeError
  | HintStr s => Ok (Text.lower s)
  end.

(** The working set seeded with the reported type when it is a category. *)
Definition seed_damages (reported : string) : list string :=
  if str_in reported damage_types then [reported] else [].

(** One pass of the loop that adds random categories. *)
Fixpoint draw_additional (n : nat) (detected : list string) : M (list string) :=
  match n with
  | O => ret detected
  | S n' =>
      dt <~ choice "" damage_types ;
      draw_additional n'
        (if str_in dt detected then detected else (detected ++ [dt])%list)
  end.

(** [detected_damages] after the seed and the 1 to 3 additional draws. *)
Definition select_damages (reported : string) : M (list string) :=
  n <~ randint 1 3 ;
  draw_additional (Z.to_nat n) (seed_damages reported).

Fixpoint score_damages (detected : list string) (da : Dict.odict details)
  : M (Dict.odict details) :=
  match detected with
  | [] => ret da
  | dt :: rest =>
      s <~ uniform 0.3 0.9 ;
      c <~ uniform 0.7 0.98 ;
      a <~ uniform 0.1 0.6 ;
      score_damages rest (Dict.set dt (mk_details s c (Some a)) da)
  end.

(** The measurement block generated for one category. *)
Definition measure (dt : string) : M (option measurement) :=
  if String.eqb dt "roof" then
    a <~ randint 800 2500 ;
    p <~ randint 3 12 ;
    m <~ choice "" ["asphalt shingle"; "metal"; "tile"] ;
    d <~ uniform 0.2 0.9 ;
    ret (Some (roof_block (PInt a) (Text.str_int p +:+ "/12") m
                          (PFloat (round2 d))))
  else if String.eqb dt "siding" then
    a <~ randint 400 1800 ;
    m <~ choice "" ["vinyl"; "wood"; "fiber cement"] ;
    d <~ uniform 0.2 0.9 ;
    ret (Some (siding_block (PInt a) m (PFloat (round2 d))))
  else if String.eqb dt "structural" then
    k <~ randint 1 3 ;
    cs <~ sample "" ["wall"; "ceiling"; "floor"; "beam"; "column"] k ;
    sv <~ choice "" ["minor"; "moderate"; "severe"] ;
    ret (Some (structural_block cs sv))
  else if String.eqb dt "water" then
    a <~ randint 100 1000 ;
    d <~ randint 1 24 ;
    c <~ choice 0 [1; 2; 3] ;
    ret (Some (water_block (PInt a) (PInt d) (PInt c)))
  else if String.eqb dt "debris" then
    v <~ randint 5 50 ;
    t <~ choice "" ["construction"; "vegetation"; "mixed"] ;
    ret (Some (debris_block (PInt v) t))
  else ret None.

Fixpoint measure_damages (detected : list string) (xm : Dict.odict measurement)
  : M (Dict.odict measurement) :=
  match detected with
  | [] => ret xm
  | dt :: rest =>
      b <~ measure dt ;
      measure_damages rest
        (match b with Some blk => Dict.set dt blk xm | None => xm end)
  end.

(** The simulated detection: selected categories, their scores and their
    measurement blocks. *)
Definition detect (reported : string)
  : M (list string * Dict.odict details * Dict.odict measurement) :=
  detected <~ select_damages reported ;
  da <~ score_damages detected [] ;
  xm <~ measure_damages detected [] ;
  ret (detected, da, xm).

Definition severities (da : Dict.odict details) : list pynum :=
  map (fun d => PFloat (severity d)) (Dict.values da).

Definition confidences (da : Dict.odict details) : list pynum :=
  map (fun d => PFloat (confidence d)) (Dict.values da).

(** [_save_assessment]: the file [<assessment id>.json] in the job's report
    directory, which is created when missing. *)
Definition save_assessment (a : assessment) (rs : report_store) : report_store :=
  let dir := default ∅ (rs !! a_job_id a) in
  <[a_job_id a := <[a_assessment_id a +:+ ".json" := Some (DocAssessment a)]> dir]> rs.

(** [_update_metadata]: the record is marked completed, given the
    back-reference and the overall figures, and its file rewritten. *)
Definition completed_metadata (md : metadata) (a : assessment) : metadata :=
  mk_metadata (photo_id md) (job_id md) (damage_type md)
    (Some "completed")
    (Some (a_assessment_id a))
    (Some (a_timestamp a))
    (Some (overall_severity a))
    (Some (overall_confidence a))
    (Some (Dict.keys (damage_assessment a))).

Definition update_metadata (pi : photo_info) (a : assessment) (ps : photo_store)
  : photo_store :=
  match metadata_dir ps with
  | Some dir =>
      mk_photo_store
        (Some (<[metadata_path pi := Some (completed_metadata (pi_metadata pi) a)]> dir))
        (job_dirs ps)
  | None => ps
  end.

Definition analyze_photo (e : env) (pi : photo_info)
    (ps : photo_store) (rs : report_store)
  : result (assessment * photo_store * report_store) :=
  reported <- reported_damage_type (pi_metadata pi) ;
  let '(_, da, xm) := fst (detect reported (rand e) 0%nat) in
  sev <- mean (severities da) ;
  conf <- mean (confidences da) ;
  let a := mk_assessment (pi_photo_id pi) (pi_job_id pi) (uuid4 e)
             (clock e 0%nat) da xm (round2 sev) (round2 conf) in
  Ok (a, update_metadata pi a ps, save_assessment a rs).

(** *** [process_pending_photos] *)

(** The loop over the pending photos; [envs i] is the environment of the
    [i]-th analysis.  An analysis that raises is logged and left out: it
    raises before it writes anything. *)
Fixpoint analyze_each (envs : nat -> env) (i : nat) (photos : list photo_info)
    (ps : photo_store) (rs : report_store)
  : list assessment * photo_store * report_store :=
  match photos with
  | [] => ([], ps, rs)
  | pi :: rest =>
      match analyze_photo (envs i) pi ps rs with
      | Ok (a, ps', rs') =>
          let '(results, ps'', rs'') := analyze_each envs (S i) rest ps' rs' in
          (a :: results, ps'', rs'')
      | Raise _ => analyze_each envs (S i) rest ps rs
      end
  end.

Definition process_pending_photos (envs : nat -> env)
    (ps : photo_store) (rs : report_store)
  : list assessment * photo_store * report_store :=
  analyze_each envs 0%nat (get_pending_photos ps) ps rs.

(** *** [get_job_assessments] and [generate_job_summary] *)

Definition readable_json (entry : string * option report_doc) : option report_doc :=
  if Text.endswith (fst entry) ".json" then snd entry else None.

Definition get_job_assessments (rs : report_store) (job : string) : list report_doc :=
  match rs !! job with
  | None => []
  | Some dir => omap readable_json (map_to_list dir)
  end.

(** The keys the aggregation reads from a loaded file.  A summary written by
    an earlier run lies in the same directory: it has no per-category
    estimates and no measurements, but it has the two overall figures. *)
Definition doc_damage_assessment (d : report_doc) : Dict.odict details :=
  match d with DocAssessment a => damage_assessment a | DocSummary _ => [] end.

Definition doc_measurements (d : report_doc) : Dict.odict measurement :=
  match d with DocAssessment a => xactimate_measurements a | DocSummary _ => [] end.

Definition doc_overall_severity (d : report_doc) : float :=
  match d with
  | DocAssessment a => overall_severity a
  | DocSummary s => s_overall_severity s
  end.

Definition doc_overall_confidence (d : report_doc) : float :=
  match d with
  | DocAssessment a => overall_confidence a
  | DocSummary s => s_overall_confidence s
  end.

(** [d.setdefault(k, []).append(v)] *)
Definition append_to {V : Type} (k : string) (v : V) (d : Dict.odict (list V))
  : Dict.odict (list V) :=
  Dict.set k (default [] (Dict.get k d) ++ [v])%list d.

Definition collect {V : Type} (items : Dict.odict V) (d : Dict.odict (list V))
  : Dict.odict (list V) :=
  fold_left (fun acc kv => append_to (fst kv) (snd kv) acc) items d.

Definition area_or_zero (d : details) : pynum :=
  match area_percentage d with Some f => PFloat f | None => PInt 0 end.

Definition summarise_category (dl : list details) : result summary_entry :=
  s <- mean (map (fun d => PFloat (severity d)) dl) ;
  c <- mean (map (fun d => PFloat (confidence d)) dl) ;
  a <- mean (map area_or_zero dl) ;
  Ok (mk_summary_entry (round2 s) (round2 c) (round2 a) (Z.of_nat (length dl))).

Fixpoint summarise_all (cats : Dict.odict (list details))
    (acc : Dict.odict summary_entry) : result (Dict.odict summary_entry) :=
  match cats with
  | [] => Ok acc
  | (dt, dl) :: rest =>
      se <- summarise_category dl ;
      summarise_all rest (Dict.set dt se acc)
  end.

Definition generate_job_summary (e : env) (rs : report_store) (job : string)
  : result (option (job_summary * report_store)) :=
  let assessments := get_job_assessments rs job in
  match assessments with
  | [] => Ok None
  | _ :: _ =>
      let damage_types :=
        fold_left (fun acc a => collect (doc_damage_assessment a) acc) assessments [] in
      let xs :=
        fold_left (fun acc a => collect (doc_measurements a) acc) assessments [] in
      ds <- summarise_all damage_types [] ;
      sev <- mean (map (fun a => PFloat (doc_overall_severity a)) assessments) ;
      conf <- mean (map (fun a => PFloat (doc_overall_confidence a)) assessments) ;
      let s := mk_job_summary job (Z.of_nat (length assessments)) (clock e 0%nat)
                 ds xs (round2 sev) (round2 conf) true in
      let dir := default ∅ (rs !! job) in
      Ok (Some (s, <[job := <["job_summary.json" := Some (DocSummary s)]> dir]> rs))
  end.

End Assess.

(** ** Claim formatter and submission tracker ([xactimate_integration.py]) *)

Module Xact.

Import Py DateTime.

(** One priced line of a claim. *)
Record line_item : Type := mk_line_item {
  li_category : string;
  item_id : fstring;
  description : fstring;
  quantity : pynum;
  unit : string;
  unit_price : pynum;
  total : pynum;
  notes : fstring
}.

Record totals : Type := mk_totals {
  subtotal : pynum;
  tax_rate : pynum;
  tax : pynum;
  t_total : pynum
}.

Record property_info : Type := mk_property_info {
  address : string;
  property_type : string;
  year_built : Z;
  square_footage : Z
}.

Record damage_info : Type := mk_damage_info {
  event_type : string;
  date_of_loss : datetime;
  di_overall_severity : float;
  di_damage_types : list string
}.

(** A claim.  The formatter never writes a contractor id; the payment
    calculator reads one with a default. *)
Record claim : Type := mk_claim {
  claim_id : string;
  c_job_id : string;
  c_timestamp : datetime;
  c_property_info : property_info;
  c_damage_info : damage_info;
  line_items : list line_item;
  c_totals : totals;
  c_status : string;
  contractor_id : option string
}.

(** The tracked outcome of a submission.  The last two keys exist only once
    the status check has approved the claim. *)
Record submission_result : Type := mk_submission_result {
  success : bool;
  r_claim_id : string;
  r_job_id : string;
  xactimate_id : string;
  submission_time : datetime;
  estimated_payout : pynum;
  r_status : string;
  estimated_processing_days : Z;
  payout_amount : option pynum;
  approval_date : option datetime
}.

(** A file of the claims directory. *)
Inductive claim_doc : Type :=
| DocClaim (c : claim)
| DocResult (r : submission_result).

(** The claims directory: file name to parsed file, [None] for a file that
    does not parse. *)
Abbreviation claims_store := (gmap string (option claim_doc)).

Definition claim_file (job : string) : string := job +:+ "_claim.json".
Definition result_file (job : string) : string := job +:+ "_result.json".

(** What [process_job] hands to the formatter. *)
Record job_data : Type := mk_job_data {
  jd_job_id : string;
  jd_summary : Assess.job_summary;
  jd_assessments : list Assess.report_doc
}.

(** *** [get_ready_jobs] and [load_job_data] *)

(** [summary.get('xactimate_ready', False)] on the parsed summary file; an
    assessment has no such key. *)
Definition ready_flag (d : Assess.report_doc) : bool :=
  match d with
  | Assess.DocSummary s => Assess.xactimate_ready s
  | Assess.DocAssessment _ => false
  end.

(** One job directory of the scan: the job is ready when its summary file
    parses and carries the flag, and the claims directory has no claim file
    for it yet (readable or not).  A data directory that does not exist is a
    store without job directories. *)
Definition ready_entry (cs : claims_store)
    (entry : string * gmap string (option Assess.report_doc)) : option string :=
  let '(job, dir) := entry in
  match dir !! "job_summary.json" with
  | Some (Some d) =>
      if ready_flag d then
        match cs !! claim_file job with
        | None => Some job
        | Some _ => None
        end
      else None
  | _ => None
  end.

Definition get_ready_jobs (rs : Assess.report_store) (cs : claims_store)
  : list string :=
  omap (ready_entry cs) (map_to_list rs).

(** The loaded summary as the formatter reads it.  The formatter fetches
    [damage_summary], [xactimate_summary] and [overall_severity] with
    [dict.get]; a file of the summary's name that holds an assessment has the
    last of the three and lacks the other two (and the flag and the count,
    which the formatter does not read). *)
Definition as_summary (d : Assess.report_doc) : Assess.job_summary :=
  match d with
  | Assess.DocSummary s => s
  | Assess.DocAssessment a =>
      Assess.mk_job_summary (Assess.a_job_id a) 0 (Assess.a_timestamp a) [] []
        (Assess.overall_severity a) (Assess.overall_confidence a) false
  end.

(** A file of the job directory that [load_job_data] takes as an
    assessment: every JSON file but the summary, when it parses. *)
Definition assessment_json (entry : string * option Assess.report_doc)
  : option Assess.report_doc :=
  if Text.endswith (fst entry) ".json"
     && negb (String.eqb (fst entry) "job_summary.json")
  then snd entry else None.

(** No job directory, no summary file or an unreadable one: no data. *)
Definition load_job_data (rs : Assess.report_store) (job : string)
  : option job_data :=
  match rs !! job with
  | None => None
  | Some dir =>
      match dir !! "job_summary.json" with
      | Some (Some d) =>
          Some (mk_job_data job (as_summary d)
                  (omap assessment_json (map_to_list dir)))
      | _ => None
      end
  end.

(** [d[key][0]] *)
Definition first_block (blocks : list Assess.measurement) : result Assess.measurement :=
  match blocks with
  | b :: _ => Ok b
  | [] => Raise IndexError
  end.

Definition roof_items (xs : Dict.odict (list Assess.measurement)) : result (list line_item) :=
  match Dict.get "roof" xs with
  | None => Ok []
  | Some blocks =>
      roof_data <- first_block blocks ;
      let area := default (PInt 0) (Assess.area_sqft roof_data) in
      line_total <- mul area (PFloat 4.50) ;
      damage <- mul (default (PFloat 0.5) (Assess.damage_percentage roof_data)) (PInt 100) ;
      Ok [mk_line_item "Roofing" [Lit "RFG-ASPH-RPL"]
            [Lit "Replace "; Lit (default "asphalt" (Assess.material roof_data)); Lit " roof"]
            area "SQFT" (PFloat 4.50) line_total
            [Lit "Roof pitch: "; Lit (default "4/12" (Assess.pitch roof_data));
             Lit ", Damage: "; Num damage; Lit "%"]]
  end.

Definition siding_items (xs : Dict.odict (list Assess.measurement)) : result (list line_item) :=
  match Dict.get "siding" xs with
  | None => Ok []
  | Some blocks =>
      siding_data <- first_block blocks ;
      let area := default (PInt 0) (Assess.area_sqft siding_data) in
      line_total <- mul area (PFloat 3.75) ;
      damage <- mul (default (PFloat 0.5) (Assess.damage_percentage siding_data)) (PInt 100) ;
      Ok [mk_line_item "Exterior" [Lit "EXT-SDNG-RPL"]
            [Lit "Replace "; Lit (default "vinyl" (Assess.material siding_data)); Lit " siding"]
            area "SQFT" (PFloat 3.75) line_total
            [Lit "Damage: "; Num damage; Lit "%"]]
  end.

Definition structural_item (sev component : string) : line_item :=
  mk_line_item "Structural"
    [Lit "STR-"; Lit (Text.upper component); Lit "-RPR"]
    [Lit "Repair "; Lit sev; Lit " "; Lit component; Lit " damage"]
    (PInt 1) "EA" (PFloat 750.00) (PFloat 750.00)
    [Lit (Text.capitalize sev); Lit " structural damage to "; Lit component].

Definition structural_items (xs : Dict.odict (list Assess.measurement)) : result (list line_item) :=
  match Dict.get "structural" xs with
  | None => Ok []
  | Some blocks =>
      structural_data <- first_block blocks ;
      let components := default [] (Assess.affected_components structural_data) in
      let sev := default "moderate" (Assess.severity_tier structural_data) in
      Ok (map (structural_item sev) components)
  end.

Definition water_items (xs : Dict.odict (list Assess.measurement)) : result (list line_item) :=
  match Dict.get "water" xs with
  | None => Ok []
  | Some blocks =>
      water_data <- first_block blocks ;
      let cat := default (PInt 1) (Assess.category water_data) in
      let area := default (PInt 0) (Assess.affected_area_sqft water_data) in
      price <- mul (PFloat 2.50) cat ;
      scaled <- mul area (PFloat 2.50) ;
      line_total <- mul scaled cat ;
      Ok [mk_line_item "Water Damage" [Lit "WTR-CAT"; Num cat; Lit "-MIT"]
            [Lit "Category "; Num cat; Lit " water damage mitigation"]
            area "SQFT" price line_total
            [Lit "Water depth: "; Num (default (PInt 0) (Assess.depth_inches water_data));
             Lit " inches"]]
  end.

Definition debris_items (xs : Dict.odict (list Assess.measurement)) : result (list line_item) :=
  match Dict.get "debris" xs with
  | None => Ok []
  | Some blocks =>
      debris_data <- first_block blocks ;
      let volume := default (PInt 0) (Assess.volume_cubic_yards debris_data) in
      let kind := default "mixed" (Assess.debris_type debris_data) in
      line_total <- mul volume (PFloat 45.00) ;
      Ok [mk_line_item "Cleanup" [Lit "CLN-DBRS-RMV"]
            [Lit "Remove "; Lit kind; Lit " debris"]
            volume "CUYD" (PFloat 45.00) line_total
            [Lit "Debris type: "; Lit kind]]
  end.

(** The line items, in the fixed order roof, siding, structural, water,
    debris. *)
Definition build_line_items (xs : Dict.odict (list Assess.measurement))
  : result (list line_item) :=
  r <- roof_items xs ;
  sd <- siding_items xs ;
  st <- structural_items xs ;
  w <- water_items xs ;
  d <- debris_items xs ;
  Ok (r ++ sd ++ st ++ w ++ d)%list.

(** Subtotal, tax at the fixed rate and total. *)
Definition compute_totals (items : list line_item) : result totals :=
  sub <- sum (map total items) ;
  let rate := PFloat 0.07 in
  tx <- mul sub rate ;
  tot <- add sub tx ;
  Ok (mk_totals sub rate tx tot).

(** [datetime.now().replace(day=datetime.now().day - 3)]: the receiver is
    the second reading of the clock and the day comes from the third. *)
Definition loss_date (e : env) : result datetime :=
  replace_day (clock e 1%nat) (day (clock e 2%nat) - 3).

Definition format_for_xactimate (e : env) (jd : job_data) : result claim :=
  let summary := jd_summary jd in
  items <- build_line_items (Assess.xactimate_summary summary) ;
  tots <- compute_totals items ;
  lost <- loss_date e ;
  Ok (mk_claim (uuid4 e) (jd_job_id jd) (clock e 0%nat)
        (mk_property_info "123 Storm Damage St, Anytown, USA" "Residential" 1985 2200)
        (mk_damage_info "Storm" lost (Assess.s_overall_severity summary)
           (Dict.keys (Assess.damage_summary summary)))
        items tots "Ready for Submission" None).

(** *** [submit_to_xactimate] *)

(** The claim is saved under the job's claim file and a result with status
    ['Submitted'] under the job's result file.  The reference number and the
    processing estimate are the first and second draws of the call. *)
Definition submit_to_xactimate (e : env) (c : claim) (cs : claims_store)
  : submission_result * claims_store :=
  let '(ref, i) := Random.randint 10000 99999 (rand e) 0%nat in
  let '(days, _) := Random.randint 3 10 (rand e) i in
  let r := mk_submission_result true (claim_id c) (c_job_id c)
             ("XM-" +:+ Text.str_int ref) (clock e 0%nat)
             (t_total (c_totals c)) "Submitted" days None None in
  (r, <[result_file (c_job_id c) := Some (DocResult r)]>
        (<[claim_file (c_job_id c) := Some (DocClaim c)]> cs)).

(** *** [process_job] and [process_all_jobs] *)

(** Load, format, submit.  A job without data gives no result and writes
    nothing; an error of the formatter propagates to the caller, before
    anything is written.  The formatter reads the clock three times, the
    submission reads it once more. *)
Definition process_job (e : env) (rs : Assess.report_store) (cs : claims_store)
    (job : string) : result (option submission_result * claims_store) :=
  match load_job_data rs job with
  | None => Ok (None, cs)
  | Some jd =>
      c <- format_for_xactimate e jd ;
      let '(r, cs') := submit_to_xactimate (after_readings 3 e) c cs in
      Ok (Some r, cs')
  end.

(** The loop over the ready jobs; [envs i] is the environment of the [i]-th
    job.  A job whose processing raises is logged and left out, and so is a
    job without a result. *)
Fixpoint submit_each (envs : nat -> env) (i : nat) (jobs : list string)
    (rs : Assess.report_store) (cs : claims_store)
  : list submission_result * claims_store :=
  match jobs with
  | [] => ([], cs)
  | job :: rest =>
      match process_job (envs i) rs cs job with
      | Ok (Some r, cs') =>
          let '(results, cs'') := submit_each envs (S i) rest rs cs' in
          (r :: results, cs'')
      | Ok (None, cs') => submit_each envs (S i) rest rs cs'
      | Raise _ => submit_each envs (S i) rest rs cs
      end
  end.

Definition process_all_jobs (envs : nat -> env) (rs : Assess.report_store)
    (cs : claims_store) : list submission_result * claims_store :=
  submit_each envs 0%nat (get_ready_jobs rs cs) rs cs.

(** *** [check_submission_status] *)

(** The status update on the loaded result: once the whole days elapsed
    since submission reach the processing estimate, the result is approved
    and stamped with the payout and the approval time. *)
Definition update_status (now : datetime) (r : submission_result) : submission_result :=
  if (estimated_processing_days r <=? sub_days now (submission_time r)) then
    mk_submission_result (success r) (r_claim_id r) (r_job_id r) (xactimate_id r)
      (submission_time r) (estimated_payout r) "Approved"
      (estimated_processing_days r) (Some (estimated_payout r)) (Some now)
  else r.

(** [check_submission_status] as far as the source text goes: the result
    file of the job is loaded and updated.  Without a result file there is no
    result. *)
Definition checked_result (e : env) (cs : claims_store) (job : string)
  : option submission_result :=
  match cs !! result_file job with
  | Some (Some (DocResult r)) => Some (update_status (clock e 0%nat) r)
  | _ => None
  end.

(** Modelled from the spec: the end of [check_submission_status], which the
    source text does not reach (it stops inside the approval branch).  The
    updated result is persisted in place of the stored one and returned; a
    file that cannot be read as a result is logged and gives no result. *)
Definition check_submission_status (e : env) (cs : claims_store) (job : string)
  : option submission_result * claims_store :=
  match checked_result e cs job with
  | Some r' => (Some r', <[result_file job := Some (DocResult r')]> cs)
  | None => (None, cs)
  end.

End Xact.

(** ** Payment calculator ([payment_processing.py]) *)

Module Pay.

Import Py DateTime.

Record payment_record : Type := mk_payment_record {
  payment_id : string;
  p_job_id : string;
  p_claim_id : string;
  p_xactimate_id : string;
  p_contractor_id : string;
  payment_amount : pynum;
  total_claim_amount : pynum;
  payment_percentage : float;
  payment_date : datetime;
  payment_method : string;
  p_status : string;
  p_notes : string
}.

Record report : Type := mk_report {
  start_date : date;
  end_date : date;
  total_payments : Z;
  total_amount : pynum;
  rp_total_claim_amount : pynum;
  average_payment : pynum;
  payment_records : list payment_record
}.

(** A file of the payment directory. *)
Inductive payment_doc : Type :=
| DocPayment (r : payment_record)
| DocReport (r : report).

Abbreviation payment_store := (gmap string (option payment_doc)).

Definition payment_file (job : string) : string := job +:+ "_payment.json".

(** An approved result paired with its claim. *)
Record claim_info : Type := mk_claim_info {
  ci_result : Xact.submission_result;
  ci_claim : Xact.claim
}.

Definition info_job (info : claim_info) : string := Xact.r_job_id (ci_result info).

(** *** [get_approved_claims] *)

(** One file of the scan.  A result file is read as a result and the claim
    file as a claim; a file of another shape is treated as one that does not
    parse. *)
Definition approved_entry (cs : Xact.claims_store) (ps : payment_store)
    (entry : string * option Xact.claim_doc) : option claim_info :=
  let '(filename, parsed) := entry in
  if Text.endswith filename "_result.json" then
    match parsed with
    | Some (Xact.DocResult r) =>
        if String.eqb (Xact.r_status r) "Approved" then
          match ps !! payment_file (Xact.r_job_id r) with
          | Some _ => None
          | None =>
              match cs !! Xact.claim_file (Xact.r_job_id r) with
              | Some (Some (Xact.DocClaim c)) => Some (mk_claim_info r c)
              | _ => None
              end
          end
        else None
    | _ => None
    end
  else None.

Definition get_approved_claims (cs : Xact.claims_store) (ps : payment_store)
  : list claim_info :=
  omap (approved_entry cs ps) (map_to_list cs).

(** *** [calculate_contractor_payment] and [process_payment] *)

Definition calculate_contractor_payment (c : Xact.claim) (pct : float) : result pynum :=
  let total_amount := Xact.t_total (Xact.c_totals c) in
  mul total_amount (PFloat pct).

Definition process_payment (e : env) (info : claim_info) (ps : payment_store)
  : result (payment_record * payment_store) :=
  let r := ci_result info in
  let c := ci_claim info in
  amount <- calculate_contractor_payment c 0.7 ;
  let rec := mk_payment_record (uuid4 e) (Xact.r_job_id r) (Xact.r_claim_id r)
               (Xact.xactimate_id r) (default "unknown" (Xact.contractor_id c))
               amount (Xact.t_total (Xact.c_totals c)) 0.7 (clock e 0%nat)
               "Direct Deposit" "Processed"
               "Payment for storm damage assessment and documentation" in
  Ok (rec, <[payment_file (Xact.r_job_id r) := Some (DocPayment rec)]> ps).

(** *** [process_all_payments] *)

(** The loop over the approved claims; [envs i] is the environment of the
    [i]-th payment, and a payment that raises is logged and left out. *)
Fixpoint pay_each (envs : nat -> env) (i : nat) (infos : list claim_info)
    (ps : payment_store) : list payment_record * payment_store :=
  match infos with
  | [] => ([], ps)
  | info :: rest =>
      match process_payment (envs i) info ps with
      | Ok (rec, ps') =>
          let '(recs, ps'') := pay_each envs (S i) rest ps' in
          (rec :: recs, ps'')
      | Raise _ => pay_each envs (S i) rest ps
      end
  end.

Definition process_all_payments (envs : nat -> env) (cs : Xact.claims_store)
    (ps : payment_store) : list payment_record * payment_store :=
  pay_each envs 0%nat (get_approved_claims cs ps) ps.

(** *** [get_payment_status] *)

(** The parsed payment file of the job; nothing when the file is missing or
    does not parse. *)
Definition get_payment_status (ps : payment_store) (job : string)
  : option payment_doc :=
  match ps !! payment_file job with
  | Some (Some d) => Some d
  | _ => None
  end.

(** *** [generate_payment_report] *)

Definition in_range (start finish : date) (r : payment_record) : bool :=
  let d := drop_fraction (payment_date r) in
  leb (start_of_day start) d && leb d (end_of_day finish).

Definition report_entry (start finish : date) (entry : string * option payment_doc)
  : option payment_record :=
  let '(filename, parsed) := entry in
  if Text.endswith filename "_payment.json" then
    match parsed with
    | Some (DocPayment r) => if in_range start finish r then Some r else None
    | _ => None
    end
  else None.

Definition report_file (start finish : date) : string :=
  "payment_report_" +:+ iso_date start +:+ "_to_" +:+ iso_date finish +:+ ".json".

(** The report over the closed interval of the two dates, which the caller
    gives or which default to the last thirty days; it is saved in the
    payment directory. *)
Definition generate_payment_report (start finish : date) (ps : payment_store)
  : result (report * payment_store) :=
  let records := omap (report_entry start finish) (map_to_list ps) in
  let n := length records in
  amount <- sum (map payment_amount records) ;
  claimed <- sum (map total_claim_amount records) ;
  average <- (if (0 <? Z.of_nat n) then (q <- div_len amount n ; Ok (PFloat q))
              else Ok (PInt 0)) ;
  let rep := mk_report start finish (Z.of_nat n) amount claimed average records in
  Ok (rep, <[report_file start finish := Some (DocReport rep)]> ps).

End Pay.

(** ** Photo intake ([photo_collection_api.py]) *)

Module Intake.

Definition ALLOWED_EXTENSIONS : list string := ["jpg"; "jpeg"; "png"; "heic"].

(** [filename.rsplit('.', 1)[1]]: the text after the last dot, when there
    is a dot. *)
Fixpoint after_last_dot (s : string) : option string :=
  match s with
  | EmptyString => None
  | String c s' =>
      match after_last_dot s' with
      | Some ext => Some ext
      | None => if Ascii.eqb c "." then Some s' else None
      end
  end.

Definition allowed_file (filename : string) : bool :=
  match after_last_dot filename with
  | Some ext => Assess.str_in (Text.lower ext) ALLOWED_EXTENSIONS
  | None => false
  end.

End Intake.

(** * Auxiliary predicates and sample records *)

(** A number is plain when it is a float or the int [0]: the terms of the
    sums taken by the assessor and the aggregator are of this kind, and so
    are the sums. *)
Definition plain (x : Py.pynum) : Prop :=
  match x with
  | Py.PFloat _ => True
  | Py.PInt z => z = 0
  end.

(** Every key of a dictionary of lists holds a non-empty list. *)
Definition nonempty_values {V : Type} (d : Dict.odict (list V)) : Prop :=
  Forall (fun kv => snd kv <> []) d.

(** [f] holds on every integer of [lo, lo + p). *)
Fixpoint all_in (f : Z -> bool) (lo : Z) (p : positive) : bool :=
  match p with
  | xH => f lo
  | xO q => all_in f lo q && all_in f (lo + Zpos q) q
  | xI q => f lo && (all_in f (lo + 1) q && all_in f (lo + 1 + Zpos q) q)
  end.

(** For a whole-number area [n] and a category [c], the water line total
    as the formatter computes it, [(n * 2.50) * c], is the product of the
    area and the unit price, [n * (2.50 * c)]. *)
Definition water_total_agrees (c n : Z) : bool :=
  PrimFloat.Leibniz.eqb
    (Py.float_of_Z n * 2.5 * Py.float_of_Z c)%float
    (Py.float_of_Z n * (2.5 * Py.float_of_Z c))%float.





(** The calendar day of an instant, and the order of calendar days. *)
Definition date_of (t : DateTime.datetime) : DateTime.date :=
  DateTime.mk_date (DateTime.year t) (DateTime.month t) (DateTime.day t).

Definition date_leb (a b : DateTime.date) : bool :=
  DateTime.lex_leb [DateTime.d_year a; DateTime.d_month a; DateTime.d_day a]
                   [DateTime.d_year b; DateTime.d_month b; DateTime.d_day b].

(** The fields of a time of day are in their ranges. *)
Definition valid_time (t : DateTime.datetime) : Prop :=
  0 <= DateTime.hour t <= 23 /\ 0 <= DateTime.minute t <= 59
  /\ 0 <= DateTime.second t <= 59.

(** A number that converts to a float without overflow. *)
Definition convertible (x : Py.pynum) : Prop := exists f, Py.to_float x = Py.Ok f.



(** A file of a report directory as the pipeline writes it: a job summary,
    or an assessment returned by [analyze_photo]. *)
Definition assessor_made (d : Assess.report_doc) : Prop :=
  match d with
  | Assess.DocSummary _ => True
  | Assess.DocAssessment a =>
      exists e pi ps rs ps' rs',
        Assess.analyze_photo e pi ps rs = Py.Ok (a, ps', rs')
  end.

Module Sample.

Import Py DateTime.

Definition noon (d : Z) : datetime := mk_datetime 2026 11 d 12 0 0 0.

(** A tape with no regularity to speak of. *)
Definition tape : Random.tape :=
  fun i => 1234567890123 * (Z.of_nat i + 1) + 2 ^ 51.

(** An environment whose clock stands at noon of the given day of
    November 2026. *)
Definition env_on (d : Z) (id : string) : env :=
  mk_env tape id (fun _ => noon d).

(** A pending photo of job [j1] with its uploaded file. *)
Definition photo_metadata (h : Assess.hint) (status : option string) : Assess.metadata :=
  Assess.mk_metadata (Some "p1") (Some "j1") h status None None None None None.

Definition uploads (h : Assess.hint) (status : option string) : Assess.photo_store :=
  Assess.mk_photo_store
    (Some {[ "p1.json" := Some (photo_metadata h status) ]})
    {[ "j1" := ["p1.jpg"] ]}.

Definition photo (h : Assess.hint) : Assess.photo_info :=
  Assess.mk_photo_info "p1" "j1" "p1.json" "j1/p1.jpg" (photo_metadata h None).

(** A job summary whose consolidated measurements are the given ones. *)
Definition summary_of (xs : Dict.odict (list Assess.measurement)) : Assess.job_summary :=
  Assess.mk_job_summary "j1" 1 (noon 2) [] xs 0.5 0.8 true.

(** Only a roof block, of 1,000 sq ft. *)
Definition roof_job : Xact.job_data :=
  Xact.mk_job_data "j1"
    (summary_of [("roof", [Assess.roof_block (PInt 1000) "6/12" "tile" (PFloat 0.4)])])
    [].

(** A water block of category 3. *)
Definition water_of (area : pynum) : Dict.odict (list Assess.measurement) :=
  [("water", [Assess.water_block area (PInt 2) (PInt 3)])].

(** The claim formatted from the roof job on the 4th, its submission the
    same day, and the claims directory after a status check on the 20th. *)
Definition blank_claim : Xact.claim :=
  Xact.mk_claim "" "" (noon 1) (Xact.mk_property_info "" "" 0 0)
    (Xact.mk_damage_info "" (noon 1) 0 []) []
    (Xact.mk_totals (PInt 0) (PInt 0) (PInt 0) (PInt 0)) "" None.

Definition roof_claim : Xact.claim :=
  match Xact.format_for_xactimate (env_on 4 "c-1") roof_job with
  | Ok c => c
  | Raise _ => blank_claim
  end.

Definition submitted : Xact.submission_result * Xact.claims_store :=
  Xact.submit_to_xactimate (env_on 4 "c-1") roof_claim ∅.

Definition approved_store : Xact.claims_store :=
  snd (Xact.check_submission_status (env_on 20 "") (snd submitted) "j1").

Definition approved_pair : Pay.claim_info :=
  Pay.mk_claim_info (Xact.update_status (noon 20) (fst submitted)) roof_claim.

(** The payment store after the payment of job [j1] on the 21st. *)
Definition paid_store : Pay.payment_store :=
  snd (Pay.process_all_payments (fun _ => env_on 21 "pay-1") approved_store ∅).

(** The assessment of that photo, hinted as roof damage. *)
Definition analysis
  : result (Assess.assessment * Assess.photo_store * Assess.report_store) :=
  Assess.analyze_photo (env_on 3 "a-1") (photo (Assess.HintStr "Roof"))
    (uploads (Assess.HintStr "Roof") None) ∅.

(** The report store after that assessment. *)
Definition reports : Assess.report_store :=
  match analysis with
  | Ok (_, _, rs) => rs
  | Raise _ => ∅
  end.

(** The summary of job [j1] made from that report store, the store with
    the summary, and the submission of the job on the 4th. *)
Definition summarised
  : result (option (Assess.job_summary * Assess.report_store)) :=
  Assess.generate_job_summary (env_on 3 "") reports "j1".

Definition summarised_store : Assess.report_store :=
  match summarised with
  | Ok (Some (_, rs)) => rs
  | _ => ∅
  end.


End Sample.

(** * Properties *)

(** Two floats differ when their decompositions into sign, mantissa and
    exponent differ. *)
Ltac float_neq H :=
  apply (f_equal FloatOps.Prim2SF) in H; vm_compute in H; discriminate H.

(** ** Arithmetic that cannot raise *)

Section PyFacts.

Import Py.

Lemma to_float_zero : to_float (PInt 0) = Ok 0%float.
Proof. reflexivity. Qed.

Lemma to_float_hundred : to_float (PInt 100) = Ok 100%float.
Proof. reflexivity. Qed.

Lemma add_plain (x y : pynum) :
  plain x -> plain y -> exists z, add x y = Ok z /\ plain z.
Proof.
  destruct x as [a|fx], y as [b|fy]; simpl; intros Hx Hy; subst.
  - exists (PInt 0). split; reflexivity.
  - exists (PFloat (0 + fy)%float). split; [reflexivity | exact I].
  - exists (PFloat (fx + 0)%float). split; [reflexivity | exact I].
  - exists (PFloat (fx + fy)%float). split; [reflexivity | exact I].
Qed.

Lemma sum_from_plain (l : list pynum) :
  forall acc, plain acc -> Forall plain l ->
  exists r, sum_from acc l = Ok r /\ plain r.
Proof.
  induction l as [|x l IH]; intros acc Hacc Hl.
  - exists acc. split; [reflexivity | assumption].
  - inversion Hl as [|? ? Hx Hl']; subst.
    destruct (add_plain acc x Hacc Hx) as [z [Hz Hpz]].
    simpl. rewrite Hz. simpl. apply IH; assumption.
Qed.

Lemma div_len_plain (x : pynum) (n : nat) :
  plain x -> n <> 0%nat -> exists q, div_len x n = Ok q.
Proof.
  intros Hx Hn. destruct n as [|n]; [congruence|].
  destruct x as [a|f]; simpl in *.
  - subst a. exists 0%float. reflexivity.
  - eexists. reflexivity.
Qed.

(** The mean of a non-empty list of plain numbers is defined. *)
Lemma mean_plain (l : list pynum) :
  Forall plain l -> l <> [] -> exists q, mean l = Ok q.
Proof.
  intros Hl Hne. unfold mean, sum.
  destruct (sum_from_plain l (PInt 0) eq_refl Hl) as [r [Hr Hpr]].
  rewrite Hr. simpl. apply div_len_plain; [assumption|].
  destruct l; [congruence | simpl; lia].
Qed.

Lemma Forall_plain_floats {A : Type} (f : A -> float) (l : list A) :
  Forall plain (map (fun a => PFloat (f a)) l).
Proof. induction l; constructor; simpl; auto. Qed.

(** The mean of no numbers divides by zero. *)
Lemma mean_nil : mean [] = Raise ZeroDivisionError.
Proof. reflexivity. Qed.

End PyFacts.

(** ** Job aggregator *)

Section Aggregator.

Import Py Assess.

Lemma set_preserves {V : Type} (P : string * V -> Prop) (k : string) (v : V)
    (d : Dict.odict V) :
  P (k, v) -> Forall P d -> Forall P (Dict.set k v d).
Proof.
  intros Hv. induction d as [|[k' v'] d IH]; intros Hd; simpl.
  - constructor; [assumption | constructor].
  - inversion Hd; subst. destruct (String.eqb k k'); constructor; auto.
Qed.

Lemma append_to_nonempty {V : Type} (k : string) (v : V) (d : Dict.odict (list V)) :
  nonempty_values d -> nonempty_values (append_to k v d).
Proof.
  intros Hd. apply set_preserves; [|assumption].
  simpl. destruct (default [] (Dict.get k d)); discriminate.
Qed.

Lemma collect_nonempty {V : Type} (items : Dict.odict V) :
  forall d : Dict.odict (list V), nonempty_values d -> nonempty_values (collect items d).
Proof.
  unfold collect. induction items as [|kv items IH]; intros d Hd; simpl.
  - assumption.
  - apply IH, append_to_nonempty, Hd.
Qed.

Lemma collect_all_nonempty {V : Type} (view : report_doc -> Dict.odict V)
    (docs : list report_doc) :
  forall d : Dict.odict (list V), nonempty_values d ->
  nonempty_values (fold_left (fun acc a => collect (view a) acc) docs d).
Proof.
  induction docs as [|a docs IH]; intros d Hd; simpl.
  - assumption.
  - apply IH, collect_nonempty, Hd.
Qed.

Lemma area_or_zero_plain (dl : list details) : Forall plain (map area_or_zero dl).
Proof.
  induction dl as [|d dl IH]; constructor; [|assumption].
  unfold area_or_zero. destruct (area_percentage d); simpl; auto.
Qed.

Lemma summarise_category_total (dl : list details) :
  dl <> [] -> exists se, summarise_category dl = Ok se.
Proof.
  intros Hne. unfold summarise_category.
  assert (Hmap : forall (A : Type) (f : details -> A), map f dl <> []).
  { intros A f. destruct dl; [congruence | discriminate]. }
  destruct (mean_plain _ (Forall_plain_floats severity dl) (Hmap _ _)) as [s Hs].
  destruct (mean_plain _ (Forall_plain_floats confidence dl) (Hmap _ _)) as [c Hc].
  destruct (mean_plain _ (area_or_zero_plain dl) (Hmap _ _)) as [a Ha].
  rewrite Hs, Hc, Ha. simpl. eexists. reflexivity.
Qed.

Lemma summarise_all_total (cats : Dict.odict (list details)) :
  nonempty_values cats ->
  forall acc, exists ds, summarise_all cats acc = Ok ds.
Proof.
  induction cats as [|[dt dl] cats IH]; intros Hc acc; simpl.
  - eexists. reflexivity.
  - inversion Hc as [|? ? Hdl Hrest]; subst.
    destruct (summarise_category_total dl Hdl) as [se Hse].
    rewrite Hse. simpl. apply IH, Hrest.
Qed.

(** With at least one loaded file the summary is built and saved. *)
Lemma summary_of_assessments (e : env) (rs : report_store) (job : string) :
  get_job_assessments rs job <> [] ->
  exists s,
    generate_job_summary e rs job =
      Ok (Some (s, <[job := <["job_summary.json" := Some (DocSummary s)]>
                              (default ∅ (rs !! job))]> rs))
    /\ xactimate_ready s = true
    /\ assessment_count s = Z.of_nat (length (get_job_assessments rs job)).
Proof.
  unfold generate_job_summary.
  destruct (get_job_assessments rs job) as [|a docs] eqn:Hdocs; [congruence|].
  intros _.
  destruct (summarise_all_total
              (fold_left (fun acc a => collect (doc_damage_assessment a) acc)
                         (a :: docs) [])
              (collect_all_nonempty _ _ _ (List.Forall_nil _)) []) as [ds Hds].
  destruct (mean_plain _ (Forall_plain_floats doc_overall_severity (a :: docs))
              ltac:(discriminate)) as [sev Hsev].
  destruct (mean_plain _ (Forall_plain_floats doc_overall_confidence (a :: docs))
              ltac:(discriminate)) as [conf Hconf].
  rewrite Hds, Hsev, Hconf. simpl.
  eexists. split; [reflexivity|]. split; reflexivity.
Qed.


(** The saved summary is a JSON file of the job's directory like the
    assessments, and the next run loads it with them: summarising again,
    with no new assessment, counts one file more. *)
Theorem generate_job_summary_counts_itself (e e' : env) (rs rs' : report_store)
    (job : string) (s : job_summary) :
  generate_job_summary e rs job = Ok (Some (s, rs')) ->
  (forall dir, rs !! job = Some dir -> dir !! "job_summary.json" = None) ->
  exists s2 rs2,
    generate_job_summary e' rs' job = Ok (Some (s2, rs2))
    /\ assessment_count s2 = assessment_count s + 1.
Proof.
  intros Hfirst Hfresh.
  assert (Hne : get_job_assessments rs job <> []).
  { intros Hnil. unfold generate_job_summary in Hfirst. rewrite Hnil in Hfirst.
    discriminate. }
  destruct (summary_of_assessments e rs job Hne) as (s1 & Hgen & _ & Hcount).
  rewrite Hgen in Hfirst. injection Hfirst as -> <-.
  unfold get_job_assessments in Hne, Hcount.
  destruct (rs !! job) as [dir|] eqn:Hdir; [|congruence].
  assert (Hlist : get_job_assessments
                    (<[job := <["job_summary.json" := Some (DocSummary s)]> dir]> rs) job
                  ≡ₚ DocSummary s :: omap readable_json (map_to_list dir)).
  { unfold get_job_assessments. rewrite lookup_insert_eq.
    rewrite map_to_list_insert by (apply Hfresh; reflexivity). reflexivity. }
  simpl.
  destruct (summary_of_assessments e'
              (<[job := <["job_summary.json" := Some (DocSummary s)]> dir]> rs) job)
    as (s2 & Hgen2 & _ & Hcount2).
  { intros Hnil. rewrite Hnil in Hlist. apply Permutation_nil_cons in Hlist. exact Hlist. }
  eexists s2, _. split; [exact Hgen2|].
  rewrite Hcount2, Hcount, Hlist. simpl. lia.
Qed.

Lemma generate_job_summary_counts_itself_witness :
  exists s rs' s2 rs2,
    generate_job_summary (Sample.env_on 3 "") Sample.reports "j1" = Ok (Some (s, rs'))
    /\ generate_job_summary (Sample.env_on 4 "") rs' "j1" = Ok (Some (s2, rs2))
    /\ assessment_count s = 1
    /\ assessment_count s2 = 2.
Proof.
  destruct (generate_job_summary (Sample.env_on 3 "") Sample.reports "j1")
    as [[[s rs']|]|] eqn:H; try (vm_compute in H; discriminate H).
  destruct (generate_job_summary_counts_itself
              (Sample.env_on 3 "") (Sample.env_on 4 "") _ _ _ _ H)
    as (s2 & rs2 & H2 & Hcount).
  - intros dir Hdir. vm_compute in Hdir. injection Hdir as <-.
    vm_compute. reflexivity.
  - exists s, rs', s2, rs2. split; [reflexivity|]. split; [exact H2|].
    assert (Hone : assessment_count s = 1)
      by (vm_compute in H; injection H as <- _; reflexivity).
    split; [exact Hone|]. rewrite Hcount, Hone. reflexivity.
Defined.

End Aggregator.

(** ** Damage assessor *)

Section Assessor.

Import Py Assess.

Lemma is_pending_iff (md : metadata) :
  is_pending md = true <->
  processing_status md = None \/ processing_status md = Some "pending".
Proof.
  unfold is_pending. destruct (processing_status md) as [s|].
  - rewrite String.eqb_eq. split.
    + intros ->. right. reflexivity.
    + intros [H|H]; [discriminate | congruence].
  - split; auto.
Qed.

Lemma pending_entry_Some (st : photo_store) (filename : string)
    (parsed : option metadata) (info : photo_info) :
  pending_entry st (filename, parsed) = Some info <->
  exists md,
    parsed = Some md
    /\ Text.endswith filename ".json" = true
    /\ is_pending md = true
    /\ photo_id md = Some (pi_photo_id info)
    /\ job_id md = Some (pi_job_id info)
    /\ find_photo st md = Some (photo_path info)
    /\ metadata_path info = filename
    /\ pi_metadata info = md.
Proof.
  unfold pending_entry. split.
  - destruct (Text.endswith filename ".json") eqn:Hjson; [|discriminate].
    destruct parsed as [md|]; [|discriminate].
    destruct (is_pending md) eqn:Hpend; [|discriminate].
    destruct (find_photo st md) as [path|] eqn:Hfind; [|discriminate].
    destruct (photo_id md) as [p|] eqn:Hp; [|discriminate].
    destruct (job_id md) as [j|] eqn:Hj; [|discriminate].
    intros [= <-]. exists md. simpl. repeat split; auto.
  - intros (md & -> & -> & -> & Hp & Hj & -> & Hpath & Hmd).
    rewrite Hp, Hj. destruct info; simpl in *; subst. reflexivity.
Qed.

Lemma NoDup_omap_inj {A B : Type} (f : A -> option B) (l : list A) :
  (forall x y z, f x = Some z -> f y = Some z -> x = y) ->
  NoDup l -> NoDup (omap f l).
Proof.
  intros Hinj. induction 1 as [|x l Hx Hl IH]; simpl.
  - constructor.
  - destruct (f x) as [z|] eqn:Hfx; [|assumption].
    constructor; [|assumption].
    rewrite list_elem_of_omap. intros (y & Hy & Hfy).
    apply Hx. rewrite (Hinj x y z Hfx Hfy). assumption.
Qed.

(** [List.find] returns the first element that passes the test. *)
Lemma find_first {A : Type} (f : A -> bool) (l : list A) (x : A) :
  List.find f l = Some x <->
  exists before after,
    l = (before ++ x :: after)%list
    /\ f x = true
    /\ forall y, y ∈ before -> f y = false.
Proof.
  induction l as [|a l IH]; simpl.
  - split; [discriminate|].
    intros (before & after & Hl & _). destruct before; discriminate Hl.
  - destruct (f a) eqn:Hfa.
    + split.
      * intros [= ->]. exists [], l. split; [reflexivity|]. split; [assumption|].
        intros y Hy. apply elem_of_nil in Hy. contradiction.
      * intros ([|b before] & after & Hl & Hfx & Hbefore).
        -- injection Hl as -> _. reflexivity.
        -- injection Hl as <- _.
           rewrite (Hbefore a) in Hfa by apply list_elem_of_here. discriminate.
    + rewrite IH. split.
      * intros (before & after & -> & Hfx & Hbefore).
        exists (a :: before), after. split; [reflexivity|]. split; [assumption|].
        intros y Hy. apply elem_of_cons in Hy as [->|Hy]; [assumption | apply Hbefore, Hy].
      * intros ([|b before] & after & Hl & Hfx & Hbefore).
        -- injection Hl as -> _. congruence.
        -- injection Hl as _ ->. exists before, after.
           split; [reflexivity|]. split; [assumption|].
           intros y Hy. apply Hbefore. apply list_elem_of_further, Hy.
Qed.

(** The photo file of a record: the first file of the job's upload
    directory whose name starts with the photo id. *)
Lemma find_photo_Some (st : photo_store) (md : metadata) (path : string) :
  find_photo st md = Some path <->
  exists j p listing before file after,
    job_id md = Some j
    /\ photo_id md = Some p
    /\ job_dirs st !! j = Some listing
    /\ listing = (before ++ file :: after)%list
    /\ Text.startswith file p = true
    /\ (forall x, x ∈ before -> Text.startswith x p = false)
    /\ path = j +:+ "/" +:+ file.
Proof.
  unfold find_photo. split.
  - destruct (job_id md) as [j|] eqn:Hj; [|discriminate].
    destruct (photo_id md) as [p|] eqn:Hp; [|discriminate].
    destruct (job_dirs st !! j) as [listing|] eqn:Hdir; [|discriminate].
    destruct (List.find _ listing) as [file|] eqn:Hfind; [|discriminate].
    intros [= <-].
    apply find_first in Hfind as (before & after & Hl & Hfile & Hbefore).
    exists j, p, listing, before, file, after.
    split; [reflexivity|]. split; [reflexivity|]. split; [exact Hdir|].
    split; [exact Hl|]. split; [exact Hfile|]. split; [exact Hbefore | reflexivity].
  - intros (j & p & listing & before & file & after
            & -> & -> & -> & Hl & Hfile & Hbefore & ->).
    assert (Hfind : List.find (fun f => Text.startswith f p) listing = Some file).
    { apply find_first. exists before, after. repeat split; assumption. }
    rewrite Hfind. reflexivity.
Qed.

(** C5.  Every stored record has a status that is missing, ['pending'] or
    ['completed'].  Then the scan returns, once each, exactly the readable
    records of the metadata directory whose status is not ['completed'] and
    whose photo file is found: the job's upload directory exists and lists a
    file whose name starts with the photo id, the first such file being the
    one reported.  A record with no such file is left out, and the scan
    itself never raises. *)
Theorem get_pending_photos_spec (dir : gmap string (option metadata))
    (jobs : gmap string (list string)) :
  let st := mk_photo_store (Some dir) jobs in
  (forall f md, dir !! f = Some (Some md) ->
     processing_status md = None
     \/ processing_status md = Some "pending"
     \/ processing_status md = Some "completed") ->
  NoDup (get_pending_photos st)
  /\ (forall info : photo_info,
        info ∈ get_pending_photos st <->
        exists md listing before file after,
          dir !! metadata_path info = Some (Some md)
          /\ Text.endswith (metadata_path info) ".json" = true
          /\ processing_status md <> Some "completed"
          /\ photo_id md = Some (pi_photo_id info)
          /\ job_id md = Some (pi_job_id info)
          /\ jobs !! pi_job_id info = Some listing
          /\ listing = (before ++ file :: after)%list
          /\ Text.startswith file (pi_photo_id info) = true
          /\ (forall x, x ∈ before -> Text.startswith x (pi_photo_id info) = false)
          /\ photo_path info = pi_job_id info +:+ "/" +:+ file
          /\ pi_metadata info = md)
  /\ (forall f md,
        dir !! f = Some (Some md) ->
        (forall j p listing x,
           job_id md = Some j -> photo_id md = Some p ->
           jobs !! j = Some listing -> x ∈ listing ->
           Text.startswith x p = false) ->
        forall info, info ∈ get_pending_photos st -> metadata_path info <> f).
Proof.
  intros st Hstatus.
  assert (Hiff : forall info : photo_info,
            info ∈ get_pending_photos st <->
            exists md listing before file after,
              dir !! metadata_path info = Some (Some md)
              /\ Text.endswith (metadata_path info) ".json" = true
              /\ processing_status md <> Some "completed"
              /\ photo_id md = Some (pi_photo_id info)
              /\ job_id md = Some (pi_job_id info)
              /\ jobs !! pi_job_id info = Some listing
              /\ listing = (before ++ file :: after)%list
              /\ Text.startswith file (pi_photo_id info) = true
              /\ (forall x, x ∈ before -> Text.startswith x (pi_photo_id info) = false)
              /\ photo_path info = pi_job_id info +:+ "/" +:+ file
              /\ pi_metadata info = md).
  { intros info. unfold get_pending_photos. simpl. rewrite list_elem_of_omap. split.
    - intros ([f parsed] & Hin & Hentry).
      apply elem_of_map_to_list in Hin.
      apply pending_entry_Some in Hentry
        as (md & -> & Hjson & Hpend & Hp & Hj & Hfind & <- & Hmd).
      apply find_photo_Some in Hfind
        as (j & p & listing & before & file & after
            & Hj' & Hp' & Hdir & Hl & Hfile & Hbefore & Hpath).
      assert (j = pi_job_id info) by congruence.
      assert (p = pi_photo_id info) by congruence. subst j p.
      exists md, listing, before, file, after.
      apply is_pending_iff in Hpend.
      repeat split; try assumption.
      destruct Hpend as [H|H]; rewrite H; discriminate.
    - intros (md & listing & before & file & after & Hlook & Hjson & Hnot & Hp & Hj
              & Hdir & Hl & Hfile & Hbefore & Hpath & Hmd).
      exists (metadata_path info, Some md). split.
      + apply elem_of_map_to_list. assumption.
      + apply pending_entry_Some. exists md.
        repeat split; try assumption.
        * apply is_pending_iff.
          destruct (Hstatus _ _ Hlook) as [H | [H | H]]; [left | right | ]; congruence.
        * apply find_photo_Some.
          exists (pi_job_id info), (pi_photo_id info), listing, before, file, after.
          repeat split; assumption. }
  split; [|split].
  - unfold get_pending_photos. simpl.
    apply NoDup_omap_inj; [|apply NoDup_map_to_list].
    intros [f1 p1] [f2 p2] info H1 H2.
    apply pending_entry_Some in H1 as (md1 & -> & _ & _ & _ & _ & _ & <- & <-).
    apply pending_entry_Some in H2 as (md2 & -> & _ & _ & _ & _ & _ & <- & <-).
    reflexivity.
  - exact Hiff.
  - intros f md Hlook Hnone info Hin Hsame. subst f.
    apply Hiff in Hin
      as (md' & listing & before & file & after & Hlook' & _ & _ & Hp & Hj
          & Hdir & Hl & Hfile & _).
    assert (md' = md) by congruence. subst md'.
    rewrite (Hnone _ _ listing file Hj Hp Hdir) in Hfile; [discriminate|].
    rewrite Hl. apply elem_of_app. right. apply list_elem_of_here.
Qed.

(** The sample upload: one pending record, whose photo file is the only
    file of its job. *)
Lemma get_pending_photos_spec_witness :
  Sample.photo (HintStr "roof")
    ∈ get_pending_photos (Sample.uploads (HintStr "roof") None).
Proof.
  destruct (get_pending_photos_spec
              {[ "p1.json" := Some (Sample.photo_metadata (HintStr "roof") None) ]}
              {[ "j1" := ["p1.jpg"] ]}) as (_ & Hiff & _).
  - intros f md Hlook. apply lookup_singleton_Some in Hlook as [_ [= <-]].
    left. reflexivity.
  - apply Hiff.
    exists (Sample.photo_metadata (HintStr "roof") None), ["p1.jpg"], [], "p1.jpg", [].
    split; [reflexivity|]. split; [reflexivity|]. split; [discriminate|].
    split; [reflexivity|]. split; [reflexivity|]. split; [reflexivity|].
    split; [reflexivity|]. split; [reflexivity|].
    split; [intros x Hx; apply elem_of_nil in Hx; contradiction|].
    split; reflexivity.
Defined.

(** Without a metadata directory there is nothing to do. *)
Lemma get_pending_photos_no_directory (jobs : gmap string (list string)) :
  get_pending_photos (mk_photo_store None jobs) = [].
Proof. reflexivity. Qed.

(** *** Selection of categories *)

Import Random.

(** One additional draw: the drawn category joins the working set unless
    it is already there. *)
Lemma draw_additional_step (n : nat) (detected : list string) (t : tape) (i : nat) :
  let dt := nth (Z.to_nat (t i mod 5)) damage_types "" in
  draw_additional (S n) detected t i =
  draw_additional n
    (if str_in dt detected then detected else (detected ++ [dt])%list) t (S i).
Proof. reflexivity. Qed.

Lemma add_category_nonempty (dt : string) (detected : list string) :
  (if str_in dt detected then detected else (detected ++ [dt])%list) <> [].
Proof. destruct detected; simpl; [|destruct (_ || _)]; discriminate. Qed.

Lemma draw_additional_nonempty (n : nat) :
  forall detected t i,
    detected <> [] -> fst (draw_additional n detected t i) <> [].
Proof.
  induction n as [|n IH]; intros detected t i Hne.
  - assumption.
  - rewrite draw_additional_step. apply IH, add_category_nonempty.
Qed.

(** The first additional draw puts a category into an empty working set. *)
Lemma first_draw_adds (n : nat) (t : tape) (i : nat) :
  let dt := nth (Z.to_nat (t i mod 5)) damage_types "" in
  In dt damage_types
  /\ draw_additional (S n) [] t i = draw_additional n [dt] t (S i).
Proof.
  intros dt. split; [|reflexivity].
  assert (H : 0 <= t i mod 5 < 5) by (apply Z.mod_pos_bound; lia).
  apply nth_In. change (length damage_types) with 5%nat. lia.
Qed.

Lemma select_damages_nonempty (reported : string) (t : tape) (i : nat) :
  fst (select_damages reported t i) <> [].
Proof.
  unfold select_damages, randint, draw, randbelow, ret.
  assert (H : 0 <= t i mod (3 - 1 + 1) < 3 - 1 + 1) by (apply Z.mod_pos_bound; lia).
  replace (Z.to_nat (1 + t i mod (3 - 1 + 1)))
    with (S (Z.to_nat (t i mod (3 - 1 + 1)))) by lia.
  rewrite draw_additional_step.
  apply draw_additional_nonempty, add_category_nonempty.
Qed.




(** *** [analyze_photo] *)





(** C10 at the failing input.  A photo whose metadata holds [null] under
    [damage_type], as the intake writes it when the upload form has no such
    field, is not assessed: the call raises before any category is
    selected. *)
Theorem analyze_photo_null_hint (e : env) (p j file path : string)
    (status : option string) (ps : photo_store) (rs : report_store) :
  analyze_photo e
    (mk_photo_info p j file path
       (mk_metadata (Some p) (Some j) HintNull status None None None None None))
    ps rs
  = Raise AttributeError.
Proof. reflexivity. Qed.

(** C6, as the code has it.  After a successful assessment the photo's
    record is marked completed and carries the identifier of an assessment
    that is stored under the job, and the overall severity and confidence of
    that assessment are the means of its per-category values rounded to two
    decimal places. *)
Theorem analyze_photo_completed (e : env) (pi : photo_info)
    (ps ps' : photo_store) (rs rs' : report_store) (a : assessment) :
  analyze_photo e pi ps rs = Ok (a, ps', rs') ->
  (forall dir, metadata_dir ps = Some dir ->
     exists dir' md',
       metadata_dir ps' = Some dir'
       /\ dir' !! metadata_path pi = Some (Some md')
       /\ processing_status md' = Some "completed"
       /\ assessment_id md' = Some (a_assessment_id a))
  /\ (exists job_dir,
        rs' !! a_job_id a = Some job_dir
        /\ job_dir !! (a_assessment_id a +:+ ".json") = Some (Some (DocAssessment a)))
  /\ a_photo_id a = pi_photo_id pi
  /\ a_job_id a = pi_job_id pi
  /\ (exists ms, mean (severities (damage_assessment a)) = Ok ms
                 /\ overall_severity a = round2 ms)
  /\ (exists mc, mean (confidences (damage_assessment a)) = Ok mc
                 /\ overall_confidence a = round2 mc).
Proof.
  unfold analyze_photo.
  destruct (reported_damage_type (pi_metadata pi)) as [reported|]; [|discriminate].
  simpl. destruct (detect reported (rand e) 0%nat) as [[[detected da] xm] j]. simpl.
  destruct (mean (severities da)) as [ms|] eqn:Hms; [|discriminate].
  destruct (mean (confidences da)) as [mc|] eqn:Hmc; [|discriminate].
  simpl. intros [= <- <- <-]. simpl. repeat split.
  - intros dir Hdir. unfold update_metadata. rewrite Hdir. simpl.
    eexists _, _. split; [reflexivity|]. split; [apply lookup_insert_eq|].
    split; reflexivity.
  - unfold save_assessment. simpl. eexists. split; apply lookup_insert_eq.
  - exists ms. split; [assumption | reflexivity].
  - exists mc. split; [assumption | reflexivity].
Qed.

Lemma analyze_photo_completed_witness :
  exists a ps' rs',
    Sample.analysis = Ok (a, ps', rs')
    /\ (exists job_dir,
          rs' !! a_job_id a = Some job_dir
          /\ job_dir !! (a_assessment_id a +:+ ".json") = Some (Some (DocAssessment a)))
    /\ (exists ms, mean (severities (damage_assessment a)) = Ok ms
                   /\ overall_severity a = round2 ms).
Proof.
  destruct Sample.analysis as [[[a ps'] rs']|] eqn:H; [|vm_compute in H; discriminate H].
  exists a, ps', rs'. split; [reflexivity|].
  destruct (analyze_photo_completed _ _ _ _ _ _ _ H) as (_ & Hsaved & _ & _ & Hsev & _).
  split; assumption.
Defined.

(** The claim as stated fails on the sample photo: three categories are
    selected, their severities average to 0.4506..., and the assessment
    records 0.45. *)
Lemma analyze_photo_overall_is_rounded :
  match Sample.analysis with
  | Ok (a, _, _) =>
      length (damage_assessment a) = 3%nat
      /\ mean (severities (damage_assessment a)) = Ok 0.45065790993459715%float
      /\ overall_severity a = 0.45%float
      /\ mean (severities (damage_assessment a)) <> Ok (overall_severity a)
  | Raise _ => False
  end.
Proof.
  vm_compute. repeat split. intros [= H]; float_neq H.
Qed.

End Assessor.

(** ** Claim formatter *)

Section Formatter.

Import Py DateTime Xact.

Lemma days_in_month_ge_28 (y m : Z) : 28 <= days_in_month y m.
Proof.
  unfold days_in_month.
  destruct (m =? 2); [destruct (is_leap y); lia|].
  destruct ((m =? 4) || (m =? 6) || (m =? 9) || (m =? 11)); lia.
Qed.

(** From the 4th of a month on, the loss date exists. *)
Lemma loss_date_defined (e : env) :
  3 < day (clock e 2%nat) <= 31 -> exists d, loss_date e = Ok d.
Proof.
  intros H. unfold loss_date, replace_day.
  pose proof (days_in_month_ge_28 (year (clock e 1%nat)) (month (clock e 1%nat))).
  destruct (1 <=? day (clock e 2%nat) - 3) eqn:H1; [|lia].
  destruct (day (clock e 2%nat) - 3 <=? _) eqn:H2; [|lia].
  simpl. eexists. reflexivity.
Qed.

(** On the first three days of a month it does not: the day handed to
    [replace] is zero or negative. *)
Lemma loss_date_early (e : env) :
  day (clock e 2%nat) <= 3 -> loss_date e = Raise ValueError.
Proof.
  intros H. unfold loss_date, replace_day.
  destruct (1 <=? day (clock e 2%nat) - 3) eqn:H1; [lia|]. reflexivity.
Qed.

Lemma mul_hundred (x : pynum) : exists y, mul x (PInt 100) = Ok y.
Proof. destruct x; eexists; reflexivity. Qed.

Lemma totals_of_4500 (items : list line_item) :
  map total items = [PFloat 4500] ->
  compute_totals items =
    Ok (mk_totals (PFloat 4500) (PFloat 0.07) (PFloat 315.00000000000006) (PFloat 4815)).
Proof. intros H. unfold compute_totals. rewrite H. reflexivity. Qed.

Lemma roof_only_items (b : Assess.measurement) (rest : list Assess.measurement)
    (area : pynum) :
  Assess.area_sqft b = Some area ->
  area = PInt 1000 \/ area = PFloat 1000 ->
  exists item,
    build_line_items [("roof", b :: rest)] = Ok [item]
    /\ quantity item = area
    /\ unit_price item = PFloat 4.5
    /\ total item = PFloat 4500.
Proof.
  intros Harea Hval.
  destruct (mul_hundred (default (PFloat 0.5) (Assess.damage_percentage b))) as [dmg Hdmg].
  unfold build_line_items, roof_items. simpl.
  rewrite Harea. simpl.
  assert (Hmul : mul area (PFloat 4.5) = Ok (PFloat 4500))
    by (destruct Hval; subst; reflexivity).
  rewrite Hmul. simpl. rewrite Hdmg. simpl.
  eexists. split; [reflexivity|]. simpl. repeat split.
Qed.

(** From the 4th of a month on, a job summary whose measurements hold only
    a roof block of 1,000 sq ft is formatted: the claim has exactly one line
    item, with quantity 1000, unit price 4.50 and line total 4500.00; the
    subtotal is 4500.00, the tax is the binary64 product of the subtotal and
    the rate 0.07, which is 315.00000000000006 (315.00 once rounded to two
    decimals), and the total is their binary64 sum, 4815.00. *)
Theorem format_roof_1000 (e : env) (jd : job_data)
    (b : Assess.measurement) (rest : list Assess.measurement) (area : pynum) :
  Assess.xactimate_summary (jd_summary jd) = [("roof", b :: rest)] ->
  Assess.area_sqft b = Some area ->
  area = PInt 1000 \/ area = PFloat 1000 ->
  3 < day (clock e 2%nat) <= 31 ->
  exists c item,
    format_for_xactimate e jd = Ok c
    /\ line_items c = [item]
    /\ quantity item = area
    /\ unit_price item = PFloat 4.5
    /\ total item = PFloat 4500
    /\ subtotal (c_totals c) = PFloat 4500
    /\ tax_rate (c_totals c) = PFloat 0.07
    /\ mul (subtotal (c_totals c)) (tax_rate (c_totals c)) = Ok (tax (c_totals c))
    /\ tax (c_totals c) = PFloat 315.00000000000006
    /\ round2 315.00000000000006 = 315%float
    /\ add (subtotal (c_totals c)) (tax (c_totals c)) = Ok (t_total (c_totals c))
    /\ t_total (c_totals c) = PFloat 4815.
Proof.
  intros Hxs Harea Hval Hday.
  destruct (roof_only_items b rest area Harea Hval) as (item & Hitems & Hq & Hp & Ht).
  destruct (loss_date_defined e Hday) as [lost Hlost].
  unfold format_for_xactimate. rewrite Hxs, Hitems. simpl.
  rewrite (totals_of_4500 [item]) by (simpl; rewrite Ht; reflexivity).
  simpl. rewrite Hlost. simpl.
  eexists _, item. split; [reflexivity|]. simpl.
  repeat split; assumption.
Qed.

Lemma format_roof_1000_witness :
  exists c item,
    format_for_xactimate (Sample.env_on 15 "c-1") Sample.roof_job = Ok c
    /\ line_items c = [item]
    /\ quantity item = PInt 1000
    /\ unit_price item = PFloat 4.5
    /\ total item = PFloat 4500
    /\ subtotal (c_totals c) = PFloat 4500
    /\ tax_rate (c_totals c) = PFloat 0.07
    /\ mul (subtotal (c_totals c)) (tax_rate (c_totals c)) = Ok (tax (c_totals c))
    /\ tax (c_totals c) = PFloat 315.00000000000006
    /\ round2 315.00000000000006 = 315%float
    /\ add (subtotal (c_totals c)) (tax (c_totals c)) = Ok (t_total (c_totals c))
    /\ t_total (c_totals c) = PFloat 4815.
Proof.
  apply (format_roof_1000 (Sample.env_on 15 "c-1") Sample.roof_job
           (Assess.roof_block (PInt 1000) "6/12" "tile" (PFloat 0.4)) [] (PInt 1000)).
  - reflexivity.
  - reflexivity.
  - left. reflexivity.
  - simpl. lia.
Defined.

(** C1.  The claim fails in the code on the first three days of a month.
    For a job summary whose measurements hold only a roof block of 1,000
    sq ft, the formatter computes the one line item, with quantity 1000, unit
    price 4.50 and line total 4500.00, and the totals, subtotal 4500.00, tax
    315.00 to the last bit of a float and total 4815.00; it then builds the
    loss date with [replace(day=day - 3)], which raises [ValueError] for the
    day 0, -1 or -2, and no claim is returned. *)
Theorem format_roof_1000_early_in_month (e : env) (jd : job_data)
    (b : Assess.measurement) (rest : list Assess.measurement) (area : pynum) :
  Assess.xactimate_summary (jd_summary jd) = [("roof", b :: rest)] ->
  Assess.area_sqft b = Some area ->
  area = PInt 1000 \/ area = PFloat 1000 ->
  day (clock e 2%nat) <= 3 ->
  (exists item,
     build_line_items (Assess.xactimate_summary (jd_summary jd)) = Ok [item]
     /\ quantity item = area
     /\ unit_price item = PFloat 4.5
     /\ total item = PFloat 4500
     /\ compute_totals [item]
        = Ok (mk_totals (PFloat 4500) (PFloat 0.07) (PFloat 315.00000000000006)
                (PFloat 4815)))
  /\ loss_date e = Raise ValueError
  /\ format_for_xactimate e jd = Raise ValueError.
Proof.
  intros Hxs Harea Hval Hday.
  destruct (roof_only_items b rest area Harea Hval) as (item & Hitems & Hq & Hp & Ht).
  assert (Htots : compute_totals [item]
                  = Ok (mk_totals (PFloat 4500) (PFloat 0.07)
                          (PFloat 315.00000000000006) (PFloat 4815))).
  { apply totals_of_4500. simpl. rewrite Ht. reflexivity. }
  split; [|split].
  - exists item. rewrite Hxs. repeat split; assumption.
  - apply loss_date_early, Hday.
  - unfold format_for_xactimate. rewrite Hxs, Hitems. cbn [bind].
    rewrite Htots. cbn [bind]. rewrite (loss_date_early e Hday). reflexivity.
Qed.

Lemma format_roof_1000_early_in_month_witness :
  format_for_xactimate (Sample.env_on 3 "c-1") Sample.roof_job = Raise ValueError.
Proof.
  apply (format_roof_1000_early_in_month (Sample.env_on 3 "c-1") Sample.roof_job
           (Assess.roof_block (PInt 1000) "6/12" "tile" (PFloat 0.4)) [] (PInt 1000)).
  - reflexivity.
  - reflexivity.
  - left. reflexivity.
  - simpl. lia.
Defined.

(** On the first three days of a month no job is formatted: the line items
    and the totals are computed, and then the loss date cannot be built. *)
Theorem format_early_in_month (e : env) (jd : job_data) :
  day (clock e 2%nat) <= 3 ->
  is_ok (items <- build_line_items (Assess.xactimate_summary (jd_summary jd)) ;
         compute_totals items) = true ->

  format_for_xactimate e jd = Raise ValueError.
Proof.
  intros Hday Hitems. unfold format_for_xactimate.
  destruct (build_line_items _) as [items|]; [|discriminate]. simpl in *.
  destruct (compute_totals items); [|discriminate]. simpl.
  rewrite (loss_date_early e Hday). reflexivity.
Qed.

Lemma format_early_in_month_witness :
  format_for_xactimate (Sample.env_on 3 "c-1") Sample.roof_job = Raise ValueError.
Proof.
  apply (format_early_in_month (Sample.env_on 3 "c-1") Sample.roof_job).
  - simpl. lia.
  - reflexivity.
Defined.

(** *** Water damage *)

Lemma all_in_sound (f : Z -> bool) (p : positive) :
  forall lo, all_in f lo p = true ->
  forall n, lo <= n < lo + Zpos p -> f n = true.
Proof.
  induction p as [q IH|q IH|]; intros lo H n Hn; simpl in H.
  - apply andb_prop in H as [H0 H]. apply andb_prop in H as [H1 H2].
    destruct (Z.eq_dec n lo) as [->|]; [assumption|].
    destruct (Z_lt_le_dec n (lo + 1 + Zpos q)).
    + apply (IH _ H1). lia.
    + apply (IH _ H2). lia.
  - apply andb_prop in H as [H1 H2].
    destruct (Z_lt_le_dec n (lo + Zpos q)).
    + apply (IH _ H1). lia.
    + apply (IH _ H2). lia.
  - replace n with lo by lia. assumption.
Qed.

(** Checked by evaluation on every area from 0 to 16383, for each of the
    three categories. *)
Lemma water_totals_checked :
  all_in (water_total_agrees 1) 0 (2 ^ 14) = true
  /\ all_in (water_total_agrees 2) 0 (2 ^ 14) = true
  /\ all_in (water_total_agrees 3) 0 (2 ^ 14) = true.
Proof. split; [|split]; vm_compute; reflexivity. Qed.

Lemma water_totals_agree (c n : Z) :
  1 <= c <= 3 -> 0 <= n <= 10000 ->
  (float_of_Z n * 2.5 * float_of_Z c)%float
  = (float_of_Z n * (2.5 * float_of_Z c))%float.
Proof.
  intros Hc Hn. apply FloatAxioms.Leibniz.eqb_spec.
  destruct water_totals_checked as (H1 & H2 & H3).
  assert (Hcases : c = 1 \/ c = 2 \/ c = 3) by lia.
  destruct Hcases as [-> | [-> | ->]];
    [ apply (all_in_sound _ _ _ H1) | apply (all_in_sound _ _ _ H2)
    | apply (all_in_sound _ _ _ H3) ]; lia.
Qed.

Lemma to_float_category (c : Z) :
  1 <= c <= 3 -> to_float (PInt c) = Ok (float_of_Z c).
Proof.
  intros Hc. assert (Hcases : c = 1 \/ c = 2 \/ c = 3) by lia.
  destruct Hcases as [-> | [-> | ->]]; reflexivity.
Qed.

Lemma mul_by_float (a : pynum) (fa y : float) :
  to_float a = Ok fa -> mul a (PFloat y) = Ok (PFloat (fa * y)).
Proof.
  intros H. destruct a as [z|f]; simpl in *.
  - unfold to_float in H. rewrite H. reflexivity.
  - injection H as ->. reflexivity.
Qed.

Lemma whole_area_float (a : pynum) (fa : float) (n : Z) :
  a = PInt n \/ a = PFloat (float_of_Z n) ->
  to_float a = Ok fa ->
  fa = float_of_Z n.
Proof.
  intros [-> | ->] Hfa.
  - unfold to_float in Hfa. destruct (is_infinity (float_of_Z n)); congruence.
  - injection Hfa as <-. reflexivity.
Qed.

(** C8.  For a water block of category 1, 2 or 3 whose area is a number in
    the float range, the formatter emits one line item: its quantity is the
    area, its unit price is 2.50 times the category, and its line total is
    the area times 2.50, times the category, computed in that order.  For a
    whole-number area up to 10,000 sq ft, written as an int or as a float,
    that total is the area times the unit price, to the last bit. *)
Theorem water_item_pricing (xs : Dict.odict (list Assess.measurement))
    (b : Assess.measurement) (rest : list Assess.measurement)
    (a : pynum) (fa : float) (c : Z) :
  Dict.get "water" xs = Some (b :: rest) ->
  Assess.affected_area_sqft b = Some a ->
  Assess.category b = Some (PInt c) ->
  1 <= c <= 3 ->
  to_float a = Ok fa ->
  exists item,
    water_items xs = Ok [item]
    /\ quantity item = a
    /\ mul (PFloat 2.5) (PInt c) = Ok (unit_price item)
    /\ unit_price item = PFloat (2.5 * float_of_Z c)
    /\ (scaled <- mul a (PFloat 2.5) ; mul scaled (PInt c)) = Ok (total item)
    /\ total item = PFloat (fa * 2.5 * float_of_Z c)
    /\ (forall n, a = PInt n \/ a = PFloat (float_of_Z n) -> 0 <= n <= 10000 ->
          mul a (unit_price item) = Ok (total item)).
Proof.
  intros Hget Harea Hcat Hc Hfa.
  pose proof (to_float_category c Hc) as Hfc.
  assert (Hprice : mul (PFloat 2.5) (PInt c) = Ok (PFloat (2.5 * float_of_Z c))).
  { simpl. unfold to_float in Hfc. rewrite Hfc. reflexivity. }
  pose proof (mul_by_float a fa 2.5 Hfa) as Hscaled.
  assert (Htotal : mul (PFloat (fa * 2.5)) (PInt c)
                   = Ok (PFloat (fa * 2.5 * float_of_Z c))).
  { simpl. unfold to_float in Hfc. rewrite Hfc. reflexivity. }
  unfold water_items. rewrite Hget. cbn [first_block bind]. rewrite Hcat, Harea.
  cbn [default from_option id].
  rewrite Hprice. cbn [bind]. rewrite Hscaled. cbn [bind]. rewrite Htotal. cbn [bind].
  eexists. split; [reflexivity|]. cbn [quantity unit_price total].
  split; [reflexivity|]. split; [reflexivity|]. split; [reflexivity|].
  split; [reflexivity|]. split; [reflexivity|].
  intros n Hwhole Hn.
  pose proof (whole_area_float a fa n Hwhole Hfa) as Hn'.
  rewrite (mul_by_float a fa _ Hfa). subst fa.
  rewrite (water_totals_agree c n Hc Hn). reflexivity.
Qed.

Lemma water_item_pricing_witness :
  exists item,
    water_items (Sample.water_of (PInt 200)) = Ok [item]
    /\ unit_price item = PFloat 7.5
    /\ total item = PFloat 1500
    /\ mul (PInt 200) (unit_price item) = Ok (total item).
Proof.
  destruct (water_item_pricing (Sample.water_of (PInt 200))
              (Assess.water_block (PInt 200) (PInt 2) (PInt 3)) []
              (PInt 200) 200 3)
    as (item & Hitem & _ & _ & Hprice & _ & Htotal & Hagree).
  - reflexivity.
  - reflexivity.
  - reflexivity.
  - lia.
  - reflexivity.
  - exists item. split; [assumption|]. split; [rewrite Hprice; reflexivity|].
    split; [rewrite Htotal; reflexivity|].
    apply (Hagree 200); [left; reflexivity | lia].
Defined.

(** A fractional area can make the two products differ in the last bit:
    for category 3 and 128.2 sq ft the line total is 961.5 and the area times
    the unit price is 961.4999999999999, which is 961.50 once rounded to two
    decimals. *)
Lemma water_total_fractional_area :
  match water_items (Sample.water_of (PFloat 128.2)) with
  | Ok [item] =>
      unit_price item = PFloat 7.5
      /\ total item = PFloat 961.5
      /\ mul (quantity item) (unit_price item) = Ok (PFloat 961.4999999999999)
      /\ round2 961.4999999999999 = 961.5%float
  | _ => False
  end.
Proof.
  vm_compute. repeat split.
Qed.

End Formatter.

(** ** Submission tracker *)

Section Tracker.

Import Py DateTime Xact.

(** C2.  For a persisted result with status ['Submitted'], the status check
    returns and stores a result whose status is ['Approved'] exactly when the
    whole days elapsed since the stored submission time reach the stored
    processing estimate.  In that case the result is the stored one with the
    new status, the payout amount equal to the payout estimate and the
    approval date equal to the time of the check; otherwise the result and
    the store are unchanged. *)
Theorem check_submission_status_spec (e : env) (cs : claims_store) (job : string)
    (r : submission_result) :
  cs !! result_file job = Some (Some (DocResult r)) ->
  r_status r = "Submitted" ->
  let now := clock e 0%nat in
  let elapsed := sub_days now (submission_time r) in
  exists r',
    checked_result e cs job = Some r'
    /\ check_submission_status e cs job
       = (Some r', <[result_file job := Some (DocResult r')]> cs)
    /\ (r_status r' = "Approved" <-> estimated_processing_days r <= elapsed)
    /\ (estimated_processing_days r <= elapsed ->
          r' = mk_submission_result (success r) (r_claim_id r) (r_job_id r)
                 (xactimate_id r) (submission_time r) (estimated_payout r)
                 "Approved" (estimated_processing_days r)
                 (Some (estimated_payout r)) (Some now))
    /\ (elapsed < estimated_processing_days r ->
          r' = r /\ <[result_file job := Some (DocResult r')]> cs = cs).
Proof.
  intros Hlook Hstatus now elapsed.
  unfold check_submission_status, checked_result. rewrite Hlook.
  exists (update_status now r). split; [reflexivity|]. split; [reflexivity|].
  unfold update_status. fold elapsed.
  destruct (estimated_processing_days r <=? elapsed) eqn:Hle.
  - apply Z.leb_le in Hle. simpl. repeat split; auto; lia.
  - apply Z.leb_gt in Hle. split; [|split].
    + rewrite Hstatus. split; [discriminate | lia].
    + lia.
    + intros _. split; [reflexivity|]. apply insert_id. assumption.
Qed.

Lemma check_submission_status_spec_witness :
  exists r',
    check_submission_status (Sample.env_on 20 "") (snd Sample.submitted) "j1"
      = (Some r', <[result_file "j1" := Some (DocResult r')]> (snd Sample.submitted))
    /\ r_status r' = "Approved"
    /\ payout_amount r' = Some (PFloat 4815)
    /\ approval_date r' = Some (Sample.noon 20).
Proof.
  destruct (check_submission_status_spec (Sample.env_on 20 "") (snd Sample.submitted)
              "j1" (fst Sample.submitted))
    as (r' & _ & Hcheck & Hiff & Happroved & _).
  - vm_compute. reflexivity.
  - reflexivity.
  - exists r'. split; [exact Hcheck|].
    assert (Hdays : estimated_processing_days (fst Sample.submitted)
                    <= sub_days (clock (Sample.env_on 20 "") 0%nat)
                                (submission_time (fst Sample.submitted)))
      by (vm_compute; discriminate).
    rewrite (Happroved Hdays). repeat split.
Defined.

End Tracker.

(** ** Payment calculator *)

Section Payment.

Import Py DateTime Xact Pay.

Lemma append_length (s t : string) :
  String.length (s +:+ t) = (String.length s + String.length t)%nat.
Proof. induction s as [|c s IH]; simpl; [reflexivity | rewrite IH; reflexivity]. Qed.

(** Two names with the same suffix are equal only for equal stems. *)
Lemma append_inj_r (t : string) : forall s1 s2, s1 +:+ t = s2 +:+ t -> s1 = s2.
Proof.
  induction s1 as [|c1 s1 IH]; intros [|c2 s2] H; simpl in H.
  - reflexivity.
  - apply (f_equal String.length) in H.
    change (String.length t = S (String.length (s2 +:+ t))) in H.
    rewrite append_length in H. lia.
  - apply (f_equal String.length) in H.
    change (S (String.length (s1 +:+ t)) = String.length t) in H.
    rewrite append_length in H. lia.
  - injection H as -> H. f_equal. apply IH, H.
Qed.

Lemma payment_file_inj (j1 j2 : string) : payment_file j1 = payment_file j2 -> j1 = j2.
Proof. apply append_inj_r. Qed.

(** *** One payment *)

Lemma process_payment_Ok (e : env) (info : claim_info) (ps ps' : payment_store)
    (rec : payment_record) :
  process_payment e info ps = Ok (rec, ps') ->
  calculate_contractor_payment (ci_claim info) 0.7 = Ok (payment_amount rec)
  /\ p_job_id rec = info_job info
  /\ ps' = <[payment_file (info_job info) := Some (DocPayment rec)]> ps.
Proof.
  unfold process_payment.
  destruct (calculate_contractor_payment (ci_claim info) 0.7) as [amount|]; [|discriminate].
  simpl. intros [= <- <-]. repeat split.
Qed.


(** C4.  The record of a payment stores the claim's total and the
    percentage 0.7, and its amount is their product as Python computes it:
    a binary64 product, exact to the last bit, of the total taken as a float
    and 0.7.  The record is saved under the job with status ['Processed']. *)
Theorem payment_amount_is_share (e : env) (info : claim_info)
    (ps ps' : payment_store) (rec : payment_record) :
  process_payment e info ps = Ok (rec, ps') ->
  total_claim_amount rec = t_total (c_totals (ci_claim info))
  /\ payment_percentage rec = 0.7%float
  /\ mul (total_claim_amount rec) (PFloat (payment_percentage rec))
     = Ok (payment_amount rec)
  /\ (forall t, to_float (total_claim_amount rec) = Ok t ->
                payment_amount rec = PFloat (t * 0.7))
  /\ p_status rec = "Processed"
  /\ ps' !! payment_file (r_job_id (ci_result info)) = Some (Some (DocPayment rec)).
Proof.
  unfold process_payment, calculate_contractor_payment.
  destruct (mul (t_total (c_totals (ci_claim info))) (PFloat 0.7)) as [amount|] eqn:Hmul;
    [|discriminate].
  simpl. intros [= <- <-]. simpl. repeat split.
  - assumption.
  - intros t Ht. rewrite (mul_by_float _ t 0.7 Ht) in Hmul. congruence.
  - apply lookup_insert_eq.
Qed.

Lemma payment_amount_is_share_witness :
  exists rec ps',
    process_payment (Sample.env_on 21 "pay-1") Sample.approved_pair ∅ = Ok (rec, ps')
    /\ total_claim_amount rec = PFloat 4815
    /\ payment_percentage rec = 0.7%float
    /\ payment_amount rec = PFloat 3370.5.
Proof.
  destruct (process_payment (Sample.env_on 21 "pay-1") Sample.approved_pair ∅)
    as [[rec ps']|] eqn:H; [|vm_compute in H; discriminate H].
  exists rec, ps'. split; [reflexivity|].
  destruct (payment_amount_is_share _ _ _ _ _ H) as (Htot & Hpct & _ & Hfloat & _).
  split; [rewrite Htot; reflexivity|]. split; [assumption|].
  rewrite (Hfloat 4815%float) by (rewrite Htot; reflexivity). reflexivity.
Defined.

(** *** The batch *)




Lemma approved_entry_Some (cs : claims_store) (ps : payment_store)
    (f : string) (parsed : option claim_doc) (info : claim_info) :
  approved_entry cs ps (f, parsed) = Some info <->
  Text.endswith f "_result.json" = true
  /\ parsed = Some (DocResult (ci_result info))
  /\ r_status (ci_result info) = "Approved"
  /\ ps !! payment_file (info_job info) = None
  /\ cs !! claim_file (info_job info) = Some (Some (DocClaim (ci_claim info))).
Proof.
  unfold approved_entry, info_job. split.
  - destruct (Text.endswith f "_result.json"); [|discriminate].
    destruct parsed as [[c|r]|]; try discriminate.
    destruct (String.eqb (r_status r) "Approved") eqn:Hst; [|discriminate].
    apply String.eqb_eq in Hst.
    destruct (ps !! payment_file (r_job_id r)) eqn:Hpaid; [discriminate|].
    destruct (cs !! claim_file (r_job_id r)) as [[[c|r']|]|] eqn:Hclaim; try discriminate.
    intros [= <-]. simpl. repeat split; assumption.
  - intros (-> & -> & Hst & Hpaid & Hclaim).
    apply String.eqb_eq in Hst. rewrite Hst, Hpaid, Hclaim.
    destruct info; reflexivity.
Qed.



Lemma omap_cons_eq {A B : Type} (g : A -> option B) (x : A) (l : list A) :
  omap g (x :: l) = match g x with Some y => y :: omap g l | None => omap g l end.
Proof. reflexivity. Qed.






















(** *** The report *)

Lemma omap_none {A B : Type} (g : A -> option B) (l : list A) :
  (forall x, x ∈ l -> g x = None) -> omap g l = [].
Proof.
  induction l as [|x l IH]; intros H; [reflexivity|].
  rewrite omap_cons_eq, (H x) by apply list_elem_of_here.
  apply IH. intros y Hy. apply H. apply list_elem_of_further, Hy.
Qed.

(** C9.  When no payment record of the store is dated within the interval,
    the report is produced and saved, with count 0, total paid 0, total
    claimed 0 and average payment 0: the average is not computed by a
    division when there is no record. *)
Theorem empty_interval_report (start finish : date) (ps : payment_store) :
  (forall f r,
     ps !! f = Some (Some (DocPayment r)) ->
     Text.endswith f "_payment.json" = true ->
     in_range start finish r = false) ->
  exists rep,
    generate_payment_report start finish ps
      = Ok (rep, <[report_file start finish := Some (DocReport rep)]> ps)
    /\ total_payments rep = 0
    /\ total_amount rep = PInt 0
    /\ rp_total_claim_amount rep = PInt 0
    /\ average_payment rep = PInt 0
    /\ payment_records rep = [].
Proof.
  intros Hnone. unfold generate_payment_report.
  rewrite omap_none.
  - simpl. eexists. split; [reflexivity|]. repeat split.
  - intros [f parsed] Hin. apply elem_of_map_to_list in Hin.
    unfold report_entry.
    destruct (Text.endswith f "_payment.json") eqn:Hname; [|reflexivity].
    destruct parsed as [[r|rep]|]; try reflexivity.
    rewrite (Hnone f r Hin Hname). reflexivity.
Qed.

Lemma out_of_range_by_entries (start finish : date) (ps : payment_store) :
  Forall (fun entry => report_entry start finish entry = None) (map_to_list ps) ->
  forall f r,
    ps !! f = Some (Some (DocPayment r)) ->
    Text.endswith f "_payment.json" = true ->
    in_range start finish r = false.
Proof.
  intros Hall f r Hlook Hname. rewrite Forall_forall in Hall.
  specialize (Hall (f, Some (DocPayment r))). unfold report_entry in Hall.
  rewrite Hname in Hall.
  destruct (in_range start finish r); [|reflexivity].
  discriminate Hall. apply elem_of_map_to_list. assumption.
Qed.

(** The store holds the payment of the 21st of November; the report is for
    January. *)
Lemma empty_interval_report_witness :
  exists rep,
    generate_payment_report (mk_date 2026 1 1) (mk_date 2026 1 31) Sample.paid_store
      = Ok (rep, <["payment_report_2026-01-01_to_2026-01-31.json" := Some (DocReport rep)]>
                   Sample.paid_store)
    /\ total_payments rep = 0
    /\ total_amount rep = PInt 0
    /\ rp_total_claim_amount rep = PInt 0
    /\ average_payment rep = PInt 0
    /\ payment_records rep = [].
Proof.
  apply (empty_interval_report (mk_date 2026 1 1) (mk_date 2026 1 31) Sample.paid_store).
  apply out_of_range_by_entries. vm_compute. repeat constructor.
Defined.

End Payment.

(** ** File names *)

Section Names.

Lemma substring_all (p : string) : String.substring 0 (String.length p) p = p.
Proof. induction p as [|c p IH]; simpl; [reflexivity | rewrite IH; reflexivity]. Qed.

Lemma substring_suffix (s p : string) :
  String.substring (String.length s) (String.length p) (s +:+ p) = p.
Proof. induction s as [|c s IH]; simpl; [apply substring_all | exact IH]. Qed.

(** A name built by appending a suffix ends with it. *)
Lemma endswith_append (s p : string) : Text.endswith (s +:+ p) p = true.
Proof.
  unfold Text.endswith. rewrite append_length.
  apply andb_true_intro. split.
  - apply Nat.leb_le. lia.
  - replace (String.length s + String.length p - String.length p)%nat
      with (String.length s) by lia.
    rewrite substring_suffix. apply String.eqb_refl.
Qed.

Lemma substring_split (s : string) :
  forall i, (i <= String.length s)%nat ->
    s = String.substring 0 i s +:+ String.substring i (String.length s - i) s.
Proof.
  induction s as [|c s IH]; intros [|i] Hi; simpl in *.
  - reflexivity.
  - lia.
  - rewrite substring_all. reflexivity.
  - change (String c s = String c (String.substring 0 i s
                                   +:+ String.substring i (String.length s - i) s)).
    f_equal. apply IH. lia.
Qed.

(** A name that ends with a suffix is a stem followed by it. *)
Lemma endswith_inv (s p : string) :
  Text.endswith s p = true -> exists stem, s = stem +:+ p.
Proof.
  unfold Text.endswith. intros H. apply andb_prop in H as [Hle Heq].
  apply Nat.leb_le in Hle. apply String.eqb_eq in Heq.
  exists (String.substring 0 (String.length s - String.length p) s).
  pose proof (substring_split s (String.length s - String.length p)
                ltac:(lia)) as Hs.
  replace (String.length s - (String.length s - String.length p))%nat
    with (String.length p) in Hs by lia.
  rewrite Heq in Hs. exact Hs.
Qed.



End Names.

(** ** The sample records *)

Section SampleFacts.

Import Py.

Lemma sample_analysis_ok : exists a ps' rs', Sample.analysis = Ok (a, ps', rs').
Proof.
  assert (H : is_ok Sample.analysis = true) by (vm_compute; reflexivity).
  revert H. destruct Sample.analysis as [[[a ps'] rs']|]; [|discriminate].
  intros _. exists a, ps', rs'. reflexivity.
Qed.

Lemma sample_summarised_ok : exists s rs', Sample.summarised = Ok (Some (s, rs')).
Proof.
  assert (H : match Sample.summarised with Ok (Some _) => true | _ => false end = true)
    by (vm_compute; reflexivity).
  revert H. destruct Sample.summarised as [[[s rs']|]|]; try discriminate.
  intros _. exists s, rs'. reflexivity.
Qed.


Lemma sample_payment_ok :
  exists info rec ps',
    Pay.get_approved_claims Sample.approved_store ∅ = [info]
    /\ Pay.info_job info = "j1"
    /\ Pay.process_payment (Sample.env_on 21 "pay-1") info ∅ = Ok (rec, ps').
Proof.
  assert (H : match Pay.get_approved_claims Sample.approved_store ∅ with
              | [info] =>
                  String.eqb (Pay.info_job info) "j1"
                  && is_ok (Pay.process_payment (Sample.env_on 21 "pay-1") info ∅)
              | _ => false
              end = true) by (vm_compute; reflexivity).
  revert H.
  destruct (Pay.get_approved_claims Sample.approved_store ∅) as [|info [|]];
    try discriminate.
  intros H. apply andb_prop in H as [Hjob Hpay]. apply String.eqb_eq in Hjob.
  revert Hpay.
  destruct (Pay.process_payment (Sample.env_on 21 "pay-1") info ∅) as [[rec ps']|] eqn:Hp;
    [|discriminate].
  intros _. exists info, rec, ps'. split; [reflexivity|]. split; assumption.
Qed.

Lemma sample_report_ok :
  exists rep ps',
    Pay.generate_payment_report (DateTime.mk_date 2026 11 1) (DateTime.mk_date 2026 11 30)
      Sample.paid_store = Ok (rep, ps')
    /\ length (Pay.payment_records rep) = 1%nat.
Proof.
  assert (H : match Pay.generate_payment_report (DateTime.mk_date 2026 11 1)
                      (DateTime.mk_date 2026 11 30) Sample.paid_store with
              | Ok (rep, _) => Nat.eqb (length (Pay.payment_records rep)) 1
              | Raise _ => false
              end = true) by (vm_compute; reflexivity).
  revert H.
  destruct (Pay.generate_payment_report _ _ Sample.paid_store) as [[rep ps']|];
    [|discriminate].
  intros H. apply Nat.eqb_eq in H. exists rep, ps'. split; [reflexivity | assumption].
Qed.

Lemma sample_reports_fresh (dir : gmap string (option Assess.report_doc)) :
  Sample.reports !! "j1" = Some dir -> dir !! "job_summary.json" = None.
Proof.
  assert (H : match Sample.reports !! "j1" with
              | Some d => match d !! "job_summary.json" with
                          | None => true
                          | Some _ => false
                          end
              | None => true
              end = true) by (vm_compute; reflexivity).
  intros Hdir. rewrite Hdir in H.
  destruct (dir !! "job_summary.json"); [discriminate | reflexivity].
Qed.

End SampleFacts.

(** ** The batch of assessments *)

Section AssessorBatch.

Import Py Assess.



















End AssessorBatch.

(** ** What an assessment holds *)

Section AssessorOutput.

Import Py Assess Random.

Lemma str_in_iff (x : string) (l : list string) : str_in x l = true <-> x ∈ l.
Proof.
  unfold str_in. rewrite existsb_exists, list_elem_of_In. split.
  - intros (y & Hy & Heq). apply String.eqb_eq in Heq. subst. assumption.
  - intros H. exists x. split; [assumption | apply String.eqb_refl].
Qed.

Lemma str_in_not (x : string) (l : list string) : str_in x l = false <-> x ∉ l.
Proof.
  rewrite <- str_in_iff. destruct (str_in x l); split; congruence.
Qed.

(** Assigning to a key keeps the keys of a dictionary and their order; a
    new key goes last. *)
Lemma keys_set {V : Type} (k : string) (v : V) (d : Dict.odict V) :
  Dict.keys (Dict.set k v d) =
    if str_in k (Dict.keys d) then Dict.keys d else (Dict.keys d ++ [k])%list.
Proof.
  induction d as [|[k' v'] d IH]; [reflexivity|].
  cbn [Dict.set]. unfold Dict.keys in *. cbn [map fst str_in existsb].
  change (existsb (String.eqb k) (map fst d)) with (str_in k (map fst d)).
  destruct (String.eqb k k') eqn:Hk; cbn [orb map fst].
  - apply String.eqb_eq in Hk. subst. reflexivity.
  - rewrite IH. destruct (str_in k (map fst d)); reflexivity.
Qed.

Lemma keys_set_new {V : Type} (k : string) (v : V) (d : Dict.odict V) :
  k ∉ Dict.keys d -> Dict.keys (Dict.set k v d) = (Dict.keys d ++ [k])%list.
Proof. intros H. rewrite keys_set. apply str_in_not in H. rewrite H. reflexivity. Qed.

Lemma drawn_category (z : Z) : nth (Z.to_nat (z mod 5)) damage_types "" ∈ damage_types.
Proof.
  assert (H : 0 <= z mod 5 < 5) by (apply Z.mod_pos_bound; lia).
  apply list_elem_of_In, nth_In. change (length damage_types) with 5%nat. lia.
Qed.

(** The additional draws keep the working set a duplicate-free list of
    categories, add at most one category each and add at its end. *)
Lemma draw_additional_inv (n : nat) :
  forall detected t i,
    NoDup detected -> (forall c, c ∈ detected -> c ∈ damage_types) ->
    let r := fst (draw_additional n detected t i) in
    NoDup r /\ (forall c, c ∈ r -> c ∈ damage_types)
    /\ (length r <= length detected + n)%nat
    /\ detected `prefix_of` r.
Proof.
  induction n as [|n IH]; intros detected t i Hnd Hsub.
  - simpl. repeat split; try assumption; [lia | reflexivity].
  - cbv zeta. rewrite draw_additional_step. cbv zeta.
    set (dt := nth (Z.to_nat (t i mod 5)) damage_types "").
    destruct (str_in dt detected) eqn:Hin.
    + destruct (IH detected t (S i) Hnd Hsub) as (H1 & H2 & H3 & H4).
      repeat split; try assumption. lia.
    + apply str_in_not in Hin.
      destruct (IH (detected ++ [dt])%list t (S i)) as (H1 & H2 & H3 & H4).
      * apply NoDup_app. repeat split; [assumption | | apply NoDup_singleton].
        intros c Hc Hc'. apply list_elem_of_singleton in Hc'. subst. contradiction.
      * intros c Hc. apply elem_of_app in Hc as [Hc|Hc]; [apply Hsub, Hc|].
        apply list_elem_of_singleton in Hc. subst. apply drawn_category.
      * repeat split; try assumption.
        -- rewrite length_app in H3. simpl in H3. lia.
        -- etransitivity; [|exact H4]. apply prefix_app_r. reflexivity.
Qed.

Lemma select_damages_inv (reported : string) (t : tape) (i : nat) :
  let r := fst (select_damages reported t i) in
  NoDup r /\ (forall c, c ∈ r -> c ∈ damage_types)
  /\ (1 <= length r <= 4)%nat
  /\ (reported ∈ damage_types -> head r = Some reported).
Proof.
  cbv zeta. pose proof (select_damages_nonempty reported t i) as Hne.
  unfold select_damages, randint, draw, randbelow, ret in *.
  assert (H : 0 <= t i mod (3 - 1 + 1) < 3 - 1 + 1) by (apply Z.mod_pos_bound; lia).
  set (n := Z.to_nat (1 + t i mod (3 - 1 + 1))) in *.
  assert (Hn : (n <= 3)%nat) by (unfold n; lia).
  destruct (draw_additional_inv n (seed_damages reported) t (S i))
    as (H1 & H2 & H3 & H4).
  - unfold seed_damages. destruct (str_in reported damage_types);
      [apply NoDup_singleton | apply NoDup_nil_2].
  - unfold seed_damages. intros c Hc.
    destruct (str_in reported damage_types) eqn:Hr.
    + apply list_elem_of_singleton in Hc. subst. apply str_in_iff, Hr.
    + apply elem_of_nil in Hc. contradiction.
  - repeat split; try assumption.
    + destruct (fst (draw_additional n (seed_damages reported) t (S i)));
        [congruence | simpl; lia].
    + assert (length (seed_damages reported) <= 1)%nat
        by (unfold seed_damages; destruct (str_in _ _); simpl; lia).
      lia.
    + intros Hr. apply str_in_iff in Hr. unfold seed_damages in *.
      rewrite Hr in *. destruct H4 as [k ->]. reflexivity.
Qed.

Lemma score_damages_step (dt : string) (rest : list string)
    (da : Dict.odict details) (t : tape) (i : nat) :
  exists d, score_damages (dt :: rest) da t i
            = score_damages rest (Dict.set dt d da) t (S (S (S i))).
Proof. eexists. reflexivity. Qed.

(** The scores are keyed by the selected categories, in their order. *)
Lemma score_damages_keys (detected : list string) :
  forall da t i,
    NoDup (Dict.keys da ++ detected) ->
    Dict.keys (fst (score_damages detected da t i)) = (Dict.keys da ++ detected)%list.
Proof.
  induction detected as [|dt rest IH]; intros da t i Hnd.
  - simpl. rewrite app_nil_r. reflexivity.
  - destruct (score_damages_step dt rest da t i) as [d ->].
    assert (Hnew : dt ∉ Dict.keys da).
    { apply NoDup_app in Hnd as (_ & Hdis & _). intros Hin.
      apply (Hdis dt Hin). apply list_elem_of_here. }
    rewrite IH; rewrite (keys_set_new _ _ _ Hnew), <- app_assoc; [reflexivity|].
    exact Hnd.
Qed.

(** Every category has a measurement block. *)
Lemma measure_known (dt : string) (t : tape) (i : nat) :
  dt ∈ damage_types -> exists blk, fst (measure dt t i) = Some blk.
Proof.
  unfold damage_types. rewrite !elem_of_cons, elem_of_nil.
  intros [-> | [-> | [-> | [-> | [-> | []]]]]];
    try (eexists; reflexivity).
  unfold measure. simpl (String.eqb _ _). cbv iota. unfold draw.
  destruct (randint 1 3 t i) as [k j].
  destruct (sample "" ["wall"; "ceiling"; "floor"; "beam"; "column"] k t j) as [cs j'].
  destruct (choice "" ["minor"; "moderate"; "severe"] t j') as [sv j''].
  eexists. reflexivity.
Qed.

Lemma measure_damages_step (dt : string) (rest : list string)
    (xm : Dict.odict measurement) (t : tape) (i : nat) :
  measure_damages (dt :: rest) xm t i
  = measure_damages rest
      (match fst (measure dt t i) with
       | Some blk => Dict.set dt blk xm
       | None => xm
       end) t (snd (measure dt t i)).
Proof.
  cbn [measure_damages]. unfold draw. destruct (measure dt t i). reflexivity.
Qed.

Lemma measure_damages_keys (detected : list string) :
  forall xm t i,
    NoDup (Dict.keys xm ++ detected) ->
    (forall c, c ∈ detected -> c ∈ damage_types) ->
    Dict.keys (fst (measure_damages detected xm t i)) = (Dict.keys xm ++ detected)%list.
Proof.
  induction detected as [|dt rest IH]; intros xm t i Hnd Hsub.
  - simpl. rewrite app_nil_r. reflexivity.
  - rewrite measure_damages_step.
    destruct (measure_known dt t i) as [blk ->]; [apply Hsub, list_elem_of_here|].
    assert (Hnew : dt ∉ Dict.keys xm).
    { apply NoDup_app in Hnd as (_ & Hdis & _). intros Hin.
      apply (Hdis dt Hin). apply list_elem_of_here. }
    rewrite IH; rewrite ?(keys_set_new _ _ _ Hnew), <- ?app_assoc;
      [reflexivity | exact Hnd |].
    intros c Hc. apply Hsub. apply list_elem_of_further, Hc.
Qed.

Lemma detect_keys (reported : string) (t : tape) (i : nat) :
  let '(detected, da, xm) := fst (detect reported t i) in
  detected = fst (select_damages reported t i)
  /\ Dict.keys da = detected /\ Dict.keys xm = detected.
Proof.
  unfold detect, draw.
  destruct (select_damages_inv reported t i) as (Hnd & Hsub & _).
  destruct (select_damages reported t i) as [detected j]. cbn [fst] in *.
  pose proof (score_damages_keys detected [] t j Hnd) as Hda.
  destruct (score_damages detected [] t j) as [da k]. cbn [fst] in *.
  pose proof (measure_damages_keys detected [] t k Hnd Hsub) as Hxm.
  destruct (measure_damages detected [] t k) as [xm l]. cbn [fst] in *.
  repeat split; assumption.
Qed.

(** What a successful call returned. *)
Lemma analyze_photo_Ok (e : env) (pi : photo_info) (ps ps' : photo_store)
    (rs rs' : report_store) (a : assessment) :
  analyze_photo e pi ps rs = Ok (a, ps', rs') ->
  exists reported,
    reported_damage_type (pi_metadata pi) = Ok reported
    /\ damage_assessment a = (fst (detect reported (rand e) 0%nat)).1.2
    /\ xactimate_measurements a = (fst (detect reported (rand e) 0%nat)).2
    /\ a_job_id a = pi_job_id pi
    /\ a_assessment_id a = uuid4 e
    /\ ps' = update_metadata pi a ps
    /\ rs' = save_assessment a rs.
Proof.
  unfold analyze_photo.
  destruct (reported_damage_type (pi_metadata pi)) as [reported|]; [|discriminate].
  cbn [bind].
  destruct (detect reported (rand e) 0%nat) as [[[detected da] xm] j] eqn:Hdet.
  cbn [fst snd].
  destruct (mean (severities da)) as [ms|]; [|discriminate].
  destruct (mean (confidences da)) as [mc|]; [|discriminate].
  cbn [bind]. intros [= <- <- <-]. exists reported. rewrite Hdet. repeat split.
Qed.

(** Every assessment lists between one and four of the five categories,
    each once, and holds a measurement block for each of them under the same
    keys and in the same order; a reported type that is a category comes
    first. *)
Theorem analyze_photo_categories (e : env) (pi : photo_info) (ps ps' : photo_store)
    (rs rs' : report_store) (a : assessment) :
  analyze_photo e pi ps rs = Ok (a, ps', rs') ->
  let cats := Dict.keys (damage_assessment a) in
  NoDup cats
  /\ (forall c, c ∈ cats -> c ∈ damage_types)
  /\ (1 <= length cats <= 4)%nat
  /\ Dict.keys (xactimate_measurements a) = cats
  /\ (forall s, damage_type (pi_metadata pi) = HintStr s ->
        Text.lower s ∈ damage_types -> head cats = Some (Text.lower s)).
Proof.
  intros Hrun cats. subst cats.
  apply analyze_photo_Ok in Hrun as (reported & Hrep & -> & -> & _).
  pose proof (detect_keys reported (rand e) 0%nat) as Hkeys.
  destruct (select_damages_inv reported (rand e) 0%nat) as (Hnd & Hsub & Hlen & Hhead).
  destruct (detect reported (rand e) 0%nat) as [[[detected da] xm] j].
  cbn [fst snd] in *. destruct Hkeys as (-> & -> & ->).
  repeat split; try assumption; try lia.
  intros s Hs Hcat. unfold reported_damage_type in Hrep. rewrite Hs in Hrep.
  injection Hrep as <-. apply Hhead, Hcat.
Qed.

Lemma analyze_photo_categories_witness :
  exists a ps' rs',
    Sample.analysis = Ok (a, ps', rs')
    /\ Dict.keys (damage_assessment a) = Dict.keys (xactimate_measurements a)
    /\ head (Dict.keys (damage_assessment a)) = Some "roof".
Proof.
  destruct sample_analysis_ok as (a & ps' & rs' & H).
  exists a, ps', rs'. split; [exact H|].
  destruct (analyze_photo_categories _ _ _ _ _ _ _ H) as (_ & _ & _ & Hkeys & Hhead).
  split; [symmetry; exact Hkeys|].
  apply (Hhead "Roof"); [reflexivity|].
  vm_compute. apply list_elem_of_here.
Defined.

(** *** Saved assessments *)

Lemma readable_json_Some (entry : string * option report_doc) (d : report_doc) :
  readable_json entry = Some d <->
  Text.endswith (fst entry) ".json" = true /\ snd entry = Some d.
Proof.
  unfold readable_json. destruct (Text.endswith (fst entry) ".json"); split.
  - intros H. split; [reflexivity | assumption].
  - intros [_ H]. assumption.
  - discriminate.
  - intros [H _]. discriminate.
Qed.

Lemma elem_of_job_assessments (rs : report_store) (job : string) (d : report_doc) :
  d ∈ get_job_assessments rs job <->
  exists dir f, rs !! job = Some dir /\ dir !! f = Some (Some d)
                /\ Text.endswith f ".json" = true.
Proof.
  unfold get_job_assessments. destruct (rs !! job) as [dir|].
  - rewrite list_elem_of_omap. split.
    + intros ([f parsed] & Hin & Hread). apply elem_of_map_to_list in Hin.
      apply readable_json_Some in Hread as [Hjson Hd]. cbn [fst snd] in *. subst.
      exists dir, f. split; [reflexivity|]. split; assumption.
    + intros (dir' & f & [= <-] & Hf & Hjson). exists (f, Some d).
      split; [apply elem_of_map_to_list; assumption|].
      apply readable_json_Some. split; [assumption | reflexivity].
  - split; [intros H; apply elem_of_nil in H; contradiction|].
    intros (dir & f & H & _). discriminate.
Qed.



End AssessorOutput.

(** ** What a summary holds *)

Section SummaryContent.

Import Py Assess.

Lemma elem_of_keys_set {V : Type} (k : string) (v : V) (d : Dict.odict V) (x : string) :
  x ∈ Dict.keys (Dict.set k v d) <-> x = k \/ x ∈ Dict.keys d.
Proof.
  rewrite keys_set. destruct (str_in k (Dict.keys d)) eqn:Hk.
  - apply str_in_iff in Hk. split; [auto|]. intros [->|H]; assumption.
  - rewrite elem_of_app, list_elem_of_singleton. tauto.
Qed.

Lemma NoDup_keys_set {V : Type} (k : string) (v : V) (d : Dict.odict V) :
  NoDup (Dict.keys d) -> NoDup (Dict.keys (Dict.set k v d)).
Proof.
  intros Hnd. rewrite keys_set. destruct (str_in k (Dict.keys d)) eqn:Hk; [assumption|].
  apply str_in_not in Hk. apply NoDup_app. repeat split;
    [assumption | | apply NoDup_singleton].
  intros x Hx Hx'. apply list_elem_of_singleton in Hx'. subst. contradiction.
Qed.

Lemma elem_of_set {V : Type} (k : string) (v : V) (d : Dict.odict V)
    (k' : string) (v' : V) :
  (k', v') ∈ Dict.set k v d -> (k' = k /\ v' = v) \/ (k', v') ∈ d.
Proof.
  induction d as [|[k0 v0] d IH]; cbn [Dict.set].
  - intros H. apply list_elem_of_singleton in H. injection H as -> ->. left. auto.
  - destruct (String.eqb k k0).
    + intros H. apply elem_of_cons in H as [[= -> ->]|H]; [left; auto|].
      right. apply list_elem_of_further, H.
    + intros H. apply elem_of_cons in H as [[= -> ->]|H]; [right; apply list_elem_of_here|].
      destruct (IH H) as [?|?]; [left; assumption|].
      right. apply list_elem_of_further. assumption.
Qed.

Lemma collect_keys {V : Type} (items : Dict.odict V) :
  forall (d : Dict.odict (list V)),
    (NoDup (Dict.keys d) -> NoDup (Dict.keys (collect items d)))
    /\ (forall x, x ∈ Dict.keys (collect items d) <->
                  x ∈ Dict.keys items \/ x ∈ Dict.keys d).
Proof.
  unfold collect. induction items as [|[k v] items IH]; intros d; cbn [fold_left].
  - split; [auto|]. intros x. unfold Dict.keys at 2. cbn [map].
    rewrite elem_of_nil. tauto.
  - destruct (IH (append_to k v d)) as [IHnd IHin]. split.
    + intros Hnd. apply IHnd. apply NoDup_keys_set, Hnd.
    + intros x. rewrite IHin. unfold append_to. rewrite elem_of_keys_set.
      unfold Dict.keys at 3. cbn [map fst]. rewrite elem_of_cons. tauto.
Qed.

Lemma collect_all_keys {V : Type} (view : report_doc -> Dict.odict V)
    (docs : list report_doc) :
  forall (d : Dict.odict (list V)),
    let r := fold_left (fun acc a => collect (view a) acc) docs d in
    (NoDup (Dict.keys d) -> NoDup (Dict.keys r))
    /\ (forall x, x ∈ Dict.keys r <->
                  (exists a, a ∈ docs /\ x ∈ Dict.keys (view a)) \/ x ∈ Dict.keys d).
Proof.
  induction docs as [|a docs IH]; intros d; cbn [fold_left]; cbv zeta.
  - split; [auto|]. intros x. split; [auto|].
    intros [(a & Ha & _)|H]; [apply elem_of_nil in Ha; contradiction | assumption].
  - destruct (IH (collect (view a) d)) as [IHnd IHin].
    destruct (collect_keys (view a) d) as [Hnd Hin]. split.
    + intros H. apply IHnd, Hnd, H.
    + intros x. rewrite IHin, Hin. split.
      * intros [(b & Hb & Hx)|[Hx|Hx]].
        -- left. exists b. split; [apply list_elem_of_further|]; assumption.
        -- left. exists a. split; [apply list_elem_of_here | assumption].
        -- right. assumption.
      * intros [(b & Hb & Hx)|Hx]; [|auto].
        apply elem_of_cons in Hb as [->|Hb]; [auto|].
        left. exists b. split; assumption.
Qed.

Lemma summarise_all_keys (cats : Dict.odict (list details)) :
  forall acc ds,
    summarise_all cats acc = Ok ds ->
    (NoDup (Dict.keys acc) -> NoDup (Dict.keys ds))
    /\ (forall x, x ∈ Dict.keys ds <-> x ∈ Dict.keys cats \/ x ∈ Dict.keys acc)
    /\ (forall k se, (k, se) ∈ ds ->
          (k, se) ∈ acc \/ exists dl, (k, dl) ∈ cats /\ summarise_category dl = Ok se).
Proof.
  induction cats as [|[dt dl] cats IH]; intros acc ds; cbn [summarise_all].
  - intros [= <-]. split; [auto|]. split.
    + intros x. unfold Dict.keys at 2. cbn [map]. rewrite elem_of_nil. tauto.
    + intros k se H. left. assumption.
  - destruct (summarise_category dl) as [se0|] eqn:Hse; [|discriminate].
    cbn [bind]. intros Hrest.
    destruct (IH _ _ Hrest) as (IHnd & IHin & IHent). split; [|split].
    + intros Hnd. apply IHnd, NoDup_keys_set, Hnd.
    + intros x. rewrite IHin, elem_of_keys_set.
      unfold Dict.keys at 3. cbn [map fst]. rewrite elem_of_cons. tauto.
    + intros k se Hin. destruct (IHent k se Hin) as [Hacc|(dl' & Hdl & Hsum)].
      * apply elem_of_set in Hacc as [[-> ->]|Hacc]; [|left; assumption].
        right. exists dl. split; [apply list_elem_of_here | assumption].
      * right. exists dl'. split; [apply list_elem_of_further|]; assumption.
Qed.

(** What a summary that was returned is made of. *)
Lemma generate_job_summary_Ok (e : env) (rs rs' : report_store) (job : string)
    (s : job_summary) :
  generate_job_summary e rs job = Ok (Some (s, rs')) ->
  let docs := get_job_assessments rs job in
  docs <> []
  /\ rs' = <[job := <["job_summary.json" := Some (DocSummary s)]>
                      (default ∅ (rs !! job))]> rs
  /\ xactimate_ready s = true
  /\ summarise_all
       (fold_left (fun acc a => collect (doc_damage_assessment a) acc) docs []) []
     = Ok (damage_summary s)
  /\ xactimate_summary s
     = fold_left (fun acc a => collect (doc_measurements a) acc) docs [].
Proof.
  unfold generate_job_summary. cbv zeta.
  destruct (get_job_assessments rs job) as [|a docs]; [discriminate|].
  destruct (summarise_all _ []) as [ds|]; [|discriminate]. cbn [bind].
  destruct (mean (map _ (a :: docs))) as [sev|]; [|discriminate]. cbn [bind].
  destruct (mean (map _ (a :: docs))) as [conf|]; [|discriminate]. cbn [bind].
  intros [= <- <-]. repeat split. discriminate.
Qed.

(** The summary has one entry for each category that occurs in a loaded
    file, counting at least one photo, and one list of measurement blocks
    for each category measured in a loaded file. *)
Theorem generate_job_summary_categories (e : env) (rs rs' : report_store)
    (job : string) (s : job_summary) :
  generate_job_summary e rs job = Ok (Some (s, rs')) ->
  NoDup (Dict.keys (damage_summary s))
  /\ (forall c, c ∈ Dict.keys (damage_summary s) <->
        exists d, d ∈ get_job_assessments rs job
                  /\ c ∈ Dict.keys (doc_damage_assessment d))
  /\ (forall c se, (c, se) ∈ damage_summary s -> 1 <= photo_count se)
  /\ NoDup (Dict.keys (xactimate_summary s))
  /\ (forall c, c ∈ Dict.keys (xactimate_summary s) <->
        exists d, d ∈ get_job_assessments rs job
                  /\ c ∈ Dict.keys (doc_measurements d)).
Proof.
  intros Hrun. apply generate_job_summary_Ok in Hrun as (_ & _ & _ & Hds & Hxs).
  destruct (summarise_all_keys _ _ _ Hds) as (Hnd & Hin & Hent).
  destruct (collect_all_keys doc_damage_assessment (get_job_assessments rs job) [])
    as [Hcnd Hcin].
  destruct (collect_all_keys doc_measurements (get_job_assessments rs job) [])
    as [Hmnd Hmin].
  cbv zeta in *. rewrite Hxs.
  assert (Hno : forall x : string, x ∈ Dict.keys ([] : Dict.odict (list details)) <-> False)
    by (intros x; apply elem_of_nil).
  split; [apply Hnd, NoDup_nil_2|]. split; [|split; [|split]].
  - intros c. rewrite Hin, Hcin. pose proof (Hno c). tauto.
  - intros c se Hc. destruct (Hent c se Hc) as [Hacc|(dl & Hdl & Hsum)].
    + apply elem_of_nil in Hacc. contradiction.
    + pose proof (collect_all_nonempty doc_damage_assessment
                    (get_job_assessments rs job) [] (List.Forall_nil _)) as Hne.
      unfold nonempty_values in Hne. rewrite Forall_forall in Hne.
      specialize (Hne _ Hdl). cbn [snd] in Hne.
      unfold summarise_category in Hsum.
      destruct (mean (map _ dl)); [|discriminate]. cbn [bind] in Hsum.
      destruct (mean (map _ dl)); [|discriminate]. cbn [bind] in Hsum.
      destruct (mean (map area_or_zero dl)); [|discriminate]. cbn [bind] in Hsum.
      injection Hsum as <-. cbn [photo_count].
      destruct dl; [congruence | simpl; lia].
  - apply Hmnd, NoDup_nil_2.
  - intros c. rewrite Hmin. split; [|auto].
    intros [H|H]; [exact H | apply elem_of_nil in H; contradiction].
Qed.

Lemma generate_job_summary_categories_witness :
  exists s rs',
    Sample.summarised = Ok (Some (s, rs'))
    /\ NoDup (Dict.keys (damage_summary s))
    /\ NoDup (Dict.keys (xactimate_summary s)).
Proof.
  destruct sample_summarised_ok as (s & rs' & H).
  exists s, rs'. split; [exact H|].
  destruct (generate_job_summary_categories _ _ _ _ _ H) as (H1 & _ & _ & H2 & _).
  split; assumption.
Defined.

End SummaryContent.

(** ** Ready jobs and their data *)

Section ReadyJobs.

Import Py DateTime Xact.

Lemma endswith_append_summary :
  String.eqb "job_summary.json" "job_summary.json" = true.
Proof. reflexivity. Qed.







(** *** Loading a summarised job *)

Lemma omap_ext_on {A B : Type} (f g : A -> option B) (l : list A) :
  (forall x, x ∈ l -> f x = g x) -> omap f l = omap g l.
Proof.
  induction l as [|x l IH]; intros H; [reflexivity|].
  rewrite !omap_cons_eq, (H x) by apply list_elem_of_here.
  rewrite IH; [reflexivity|]. intros y Hy. apply H, list_elem_of_further, Hy.
Qed.

(** What the formatter is handed after a summary is the summary itself
    and, when the job had no summary before, the very files that were
    summarised: the loader leaves the summary file out of the assessments,
    which the aggregator's own loader does not. *)
Theorem load_summarised_job (e : env) (rs rs' : Assess.report_store)
    (job : string) (s : Assess.job_summary) :
  Assess.generate_job_summary e rs job = Ok (Some (s, rs')) ->
  (forall dir, rs !! job = Some dir -> dir !! "job_summary.json" = None) ->
  exists jd,
    load_job_data rs' job = Some jd
    /\ jd_job_id jd = job
    /\ jd_summary jd = s
    /\ jd_assessments jd ≡ₚ Assess.get_job_assessments rs job.
Proof.
  intros Hrun Hfresh.
  apply generate_job_summary_Ok in Hrun as (Hne & -> & _). cbv zeta in Hne.
  unfold load_job_data. rewrite !lookup_insert_eq. cbn [as_summary].
  eexists. split; [reflexivity|]. cbn [jd_job_id jd_summary jd_assessments].
  split; [reflexivity|]. split; [reflexivity|].
  unfold Assess.get_job_assessments in *.
  destruct (rs !! job) as [dir|] eqn:Hdir; [|congruence]. cbn [default from_option id].
  rewrite map_to_list_insert by (apply Hfresh; reflexivity).
  rewrite omap_cons_eq. unfold assessment_json at 1. cbn [fst snd].
  rewrite endswith_append_summary. cbn [negb andb].
  rewrite (omap_ext_on assessment_json Assess.readable_json); [reflexivity|].
  intros [f parsed] Hin. apply elem_of_map_to_list in Hin.
  unfold assessment_json, Assess.readable_json. cbn [fst snd].
  destruct (String.eqb f "job_summary.json") eqn:Hf.
  - apply String.eqb_eq in Hf. subst. rewrite (Hfresh dir eq_refl) in Hin. discriminate.
  - rewrite andb_true_r. reflexivity.
Qed.

Lemma load_summarised_job_witness :
  exists s rs' jd,
    Sample.summarised = Ok (Some (s, rs'))
    /\ load_job_data rs' "j1" = Some jd
    /\ jd_summary jd = s
    /\ jd_assessments jd ≡ₚ Assess.get_job_assessments Sample.reports "j1".
Proof.
  destruct sample_summarised_ok as (s & rs' & H).
  destruct (load_summarised_job _ _ _ _ _ H sample_reports_fresh)
    as (jd & Hload & _ & Hsum & Hperm).
  exists s, rs', jd. split; [exact H|]. split; [exact Hload|].
  split; [exact Hsum | exact Hperm].
Defined.

End ReadyJobs.

(** ** Submission *)

Section Submission.

Import Py DateTime Xact.




Lemma randint_range (a b : Z) (t : Random.tape) (i : nat) :
  a <= b -> a <= fst (Random.randint a b t i) <= b.
Proof.
  intros Hab. unfold Random.randint, Random.draw, Random.randbelow, Random.ret.
  cbn [fst].
  assert (H : 0 <= t i mod (b - a + 1) < b - a + 1) by (apply Z.mod_pos_bound; lia).
  lia.
Qed.

(** The result of a submission and what it leaves in the claims
    directory. *)
Lemma submit_to_xactimate_eq (e : env) (c : claim) (cs : claims_store) :
  exists ref days,
    10000 <= ref <= 99999 /\ 3 <= days <= 10
    /\ submit_to_xactimate e c cs =
       (let r := mk_submission_result true (claim_id c) (c_job_id c)
                   ("XM-" +:+ Text.str_int ref) (clock e 0%nat)
                   (t_total (c_totals c)) "Submitted" days None None in
        (r, <[result_file (c_job_id c) := Some (DocResult r)]>
              (<[claim_file (c_job_id c) := Some (DocClaim c)]> cs))).
Proof.
  unfold submit_to_xactimate.
  pose proof (randint_range 10000 99999 (rand e) 0%nat ltac:(lia)) as Href.
  destruct (Random.randint 10000 99999 (rand e) 0%nat) as [ref i]. cbn [fst] in Href.
  pose proof (randint_range 3 10 (rand e) i ltac:(lia)) as Hdays.
  destruct (Random.randint 3 10 (rand e) i) as [days j]. cbn [fst] in Hdays.
  exists ref, days. split; [assumption|]. split; [assumption | reflexivity].
Qed.


(** *** Status of a fresh submission *)



End Submission.

(** ** Processing of jobs *)

Section Jobs.

Import Py DateTime Xact.

Lemma load_job_data_job (rs : Assess.report_store) (job : string) (jd : job_data) :
  load_job_data rs job = Some jd -> jd_job_id jd = job.
Proof.
  unfold load_job_data. destruct (rs !! job) as [dir|]; [|discriminate].
  destruct (dir !! "job_summary.json") as [[d|]|]; try discriminate.
  intros [= <-]. reflexivity.
Qed.

Lemma format_for_xactimate_Ok (e : env) (jd : job_data) (c : claim) :
  format_for_xactimate e jd = Ok c ->
  c_job_id c = jd_job_id jd
  /\ claim_id c = uuid4 e
  /\ c_status c = "Ready for Submission"
  /\ build_line_items (Assess.xactimate_summary (jd_summary jd)) = Ok (line_items c)
  /\ compute_totals (line_items c) = Ok (c_totals c)
  /\ loss_date e = Ok (date_of_loss (c_damage_info c)).
Proof.
  unfold format_for_xactimate. cbv zeta.
  destruct (build_line_items _) as [items|] eqn:Hitems; [|discriminate]. cbn [bind].
  destruct (compute_totals items) as [tots|] eqn:Htots; [|discriminate]. cbn [bind].
  destruct (loss_date e) as [lost|] eqn:Hlost; [|discriminate]. cbn [bind].
  intros [= <-]. cbn [c_job_id claim_id c_status line_items c_totals c_damage_info
                      date_of_loss].
  repeat split; assumption.
Qed.

(** The three outcomes of processing one job. *)
Lemma process_job_cases (e : env) (rs : Assess.report_store) (cs : claims_store)
    (job : string) :
  (load_job_data rs job = None /\ process_job e rs cs job = Ok (None, cs))
  \/ (exists jd ex, load_job_data rs job = Some jd
                    /\ format_for_xactimate e jd = Raise ex
                    /\ process_job e rs cs job = Raise ex)
  \/ (exists jd c, load_job_data rs job = Some jd
                   /\ format_for_xactimate e jd = Ok c
                   /\ c_job_id c = job
                   /\ process_job e rs cs job =
                      (let '(r, cs') := submit_to_xactimate (after_readings 3 e) c cs in
                       Ok (Some r, cs'))).
Proof.
  unfold process_job. destruct (load_job_data rs job) as [jd|] eqn:Hload.
  - right. destruct (format_for_xactimate e jd) as [c|ex] eqn:Hfmt.
    + right. exists jd, c. split; [reflexivity|]. split; [exact Hfmt|].
      split; [|reflexivity].
      apply format_for_xactimate_Ok in Hfmt as (Hj & _). rewrite Hj.
      apply (load_job_data_job rs), Hload.
    + left. exists jd, ex. split; [reflexivity|]. split; [exact Hfmt | reflexivity].
  - left. split; reflexivity.
Qed.




(** *** The batch of submissions *)

(** One step of the batch: the job is skipped and nothing is written, or
    its claim and result are written and the result is kept. *)
Lemma submit_each_step (envs : nat -> env) (i : nat) (job : string)
    (rest : list string) (rs : Assess.report_store) (cs : claims_store) :
  submit_each envs i (job :: rest) rs cs = submit_each envs (S i) rest rs cs
  \/ exists r c,
       r_job_id r = job /\ r_status r = "Submitted"
       /\ submit_each envs i (job :: rest) rs cs =
          (let '(results, cs'') :=
             submit_each envs (S i) rest rs
               (<[result_file job := Some (DocResult r)]>
                  (<[claim_file job := Some (DocClaim c)]> cs)) in
           (r :: results, cs'')).
Proof.
  cbn [submit_each].
  destruct (process_job_cases (envs i) rs cs job)
    as [[_ H]|[(jd & ex & _ & _ & H)|(jd & c & _ & _ & Hjob & H)]]; rewrite H.
  - left. reflexivity.
  - left. reflexivity.
  - right.
    destruct (submit_to_xactimate_eq (after_readings 3 (envs i)) c cs)
      as (ref & days & _ & _ & ->). cbv zeta. rewrite Hjob.
    eexists _, c. split; [|split; [|reflexivity]]; reflexivity.
Qed.






End Jobs.

(** ** Payment status and reports *)

Section PaymentStatus.

Import Py DateTime Xact Pay.

(** The listing returns exactly the pairs of an approved result, read from
    a result file, and the claim stored for the job of that result, for the
    jobs that have no payment file yet: a result that is not approved, one
    whose claim file is missing or unreadable, and one whose job has a
    payment file (readable or not) are left out. *)
Theorem get_approved_claims_spec (cs : claims_store) (ps : payment_store)
    (info : claim_info) :
  info ∈ get_approved_claims cs ps <->
  exists f,
    cs !! f = Some (Some (DocResult (ci_result info)))
    /\ Text.endswith f "_result.json" = true
    /\ r_status (ci_result info) = "Approved"
    /\ ps !! payment_file (r_job_id (ci_result info)) = None
    /\ cs !! claim_file (r_job_id (ci_result info))
       = Some (Some (DocClaim (ci_claim info))).
Proof.
  unfold get_approved_claims. rewrite list_elem_of_omap. split.
  - intros ([f parsed] & Hin & Hentry). apply elem_of_map_to_list in Hin.
    apply approved_entry_Some in Hentry as (Hname & -> & Hst & Hpaid & Hclaim).
    exists f. repeat split; assumption.
  - intros (f & Hlook & Hname & Hst & Hpaid & Hclaim).
    exists (f, Some (DocResult (ci_result info))).
    split; [apply elem_of_map_to_list; assumption|].
    apply approved_entry_Some. repeat split; assumption.
Qed.

(** The status of a job's payment is the record of its last payment: a
    listed pair has none, a payment makes its record the status of its job
    and leaves the status of every other job as it was. *)
Theorem get_payment_status_after_payment (e : env) (cs : claims_store)
    (info : claim_info) (ps ps' : payment_store) (rec : payment_record) :
  info ∈ get_approved_claims cs ps ->
  process_payment e info ps = Ok (rec, ps') ->
  get_payment_status ps (info_job info) = None
  /\ get_payment_status ps' (info_job info) = Some (DocPayment rec)
  /\ (forall j, j <> info_job info ->
        get_payment_status ps' j = get_payment_status ps j).
Proof.
  intros Hin Hpay. unfold get_approved_claims in Hin.
  apply list_elem_of_omap in Hin as ([f parsed] & _ & Hentry).
  apply approved_entry_Some in Hentry as (_ & _ & _ & Hunpaid & _).
  apply process_payment_Ok in Hpay as (_ & _ & ->).
  unfold get_payment_status. split; [rewrite Hunpaid; reflexivity|]. split.
  - rewrite lookup_insert_eq. reflexivity.
  - intros j Hj. rewrite lookup_insert_ne; [reflexivity|].
    intros Heq. apply payment_file_inj in Heq. congruence.
Qed.

Lemma get_payment_status_after_payment_witness :
  exists info rec ps',
    get_approved_claims Sample.approved_store ∅ = [info]
    /\ process_payment (Sample.env_on 21 "pay-1") info ∅ = Ok (rec, ps')
    /\ get_payment_status ∅ "j1" = None
    /\ get_payment_status ps' "j1" = Some (DocPayment rec).
Proof.
  destruct sample_payment_ok as (info & rec & ps' & Hlist & Hjob & Hpay).
  exists info, rec, ps'. split; [exact Hlist|]. split; [exact Hpay|].
  destruct (get_payment_status_after_payment _ Sample.approved_store _ _ _ _
              ltac:(rewrite Hlist; apply list_elem_of_here) Hpay) as (H1 & H2 & _).
  rewrite Hjob in H1, H2. split; assumption.
Defined.

(** *** The interval of a report *)

Lemma time_of_day_after_midnight (h m s : Z) :
  0 <= h -> 0 <= m -> 0 <= s -> lex_leb [0; 0; 0; 0] [h; m; s; 0] = true.
Proof.
  intros Hh Hm Hs. cbn [lex_leb]. lia.
Qed.

Lemma time_of_day_before_midnight (h m s : Z) :
  h <= 23 -> m <= 59 -> s <= 59 -> lex_leb [h; m; s; 0] [23; 59; 59; 0] = true.
Proof.
  intros Hh Hm Hs. cbn [lex_leb]. lia.
Qed.

Lemma lex_leb_day (y1 m1 d1 y2 m2 d2 : Z) (t1 t2 : list Z) :
  lex_leb t1 t2 = true ->
  lex_leb (y1 :: m1 :: d1 :: t1) (y2 :: m2 :: d2 :: t2)
  = lex_leb [y1; m1; d1] [y2; m2; d2].
Proof. intros H. cbn [lex_leb]. rewrite H. reflexivity. Qed.

(** A report covers whole calendar days: a payment is in the interval
    exactly when its day is neither before the start date nor after the end
    date, whatever its time of day, the last second of the end date and its
    fraction included. *)
Theorem in_range_by_day (start finish : date) (r : payment_record) :
  valid_time (payment_date r) ->
  in_range start finish r
  = date_leb start (date_of (payment_date r))
    && date_leb (date_of (payment_date r)) finish.
Proof.
  intros (Hh & Hm & Hs). unfold in_range, leb, fields, date_leb, date_of.
  cbn [start_of_day end_of_day drop_fraction year month day hour minute second
       microsecond d_year d_month d_day].
  rewrite (lex_leb_day _ _ _ _ _ _ _ _
             (time_of_day_after_midnight _ _ _ (proj1 Hh) (proj1 Hm) (proj1 Hs))).
  rewrite (lex_leb_day _ _ _ _ _ _ _ _
             (time_of_day_before_midnight _ _ _ (proj2 Hh) (proj2 Hm) (proj2 Hs))).
  reflexivity.
Qed.

Lemma in_range_by_day_witness :
  in_range (mk_date 2026 11 1) (mk_date 2026 11 21)
    (mk_payment_record "" "j1" "" "" "" (PInt 0) (PInt 0) 0.7
       (mk_datetime 2026 11 21 23 59 59 999999) "" "" "") = true.
Proof.
  rewrite in_range_by_day; [reflexivity|].
  unfold valid_time. simpl. lia.
Defined.

(** *** The records of a report *)

Lemma report_entry_Some (start finish : date) (f : string)
    (parsed : option payment_doc) (r : payment_record) :
  report_entry start finish (f, parsed) = Some r <->
  Text.endswith f "_payment.json" = true
  /\ parsed = Some (DocPayment r)
  /\ in_range start finish r = true.
Proof.
  unfold report_entry. split.
  - destruct (Text.endswith f "_payment.json"); [|discriminate].
    destruct parsed as [[r0|rep]|]; try discriminate.
    destruct (in_range start finish r0) eqn:Hin; [|discriminate].
    intros [= <-]. repeat split. assumption.
  - intros (-> & -> & ->). reflexivity.
Qed.

(** The report lists exactly the records of the payment files dated in the
    interval, counts them, and totals their amounts and their claim amounts
    in the order listed; it is saved beside them. *)
Theorem payment_report_records (start finish : date) (ps ps' : payment_store)
    (rep : report) :
  generate_payment_report start finish ps = Ok (rep, ps') ->
  (forall r, r ∈ payment_records rep <->
     exists f, ps !! f = Some (Some (DocPayment r))
               /\ Text.endswith f "_payment.json" = true
               /\ in_range start finish r = true)
  /\ total_payments rep = Z.of_nat (length (payment_records rep))
  /\ sum (map payment_amount (payment_records rep)) = Ok (total_amount rep)
  /\ sum (map total_claim_amount (payment_records rep)) = Ok (rp_total_claim_amount rep)
  /\ (payment_records rep = [] -> average_payment rep = PInt 0)
  /\ ps' = <[report_file start finish := Some (DocReport rep)]> ps.
Proof.
  unfold generate_payment_report. cbv zeta.
  set (records := omap (report_entry start finish) (map_to_list ps)).
  destruct (sum (map payment_amount records)) as [amount|] eqn:Hamount; [|discriminate].
  cbn [bind].
  destruct (sum (map total_claim_amount records)) as [claimed|] eqn:Hclaimed;
    [|discriminate].
  cbn [bind].
  destruct (if 0 <? Z.of_nat (length records) then _ else _) as [average|] eqn:Havg;
    [|discriminate].
  cbn [bind]. intros [= <- <-].
  cbn [payment_records total_payments total_amount rp_total_claim_amount average_payment].
  split; [|repeat split; try assumption].
  - intros r. unfold records. rewrite list_elem_of_omap. split.
    + intros ([f parsed] & Hin & Hentry). apply elem_of_map_to_list in Hin.
      apply report_entry_Some in Hentry as (Hname & -> & Hrange).
      exists f. repeat split; assumption.
    + intros (f & Hlook & Hname & Hrange). exists (f, Some (DocPayment r)).
      split; [apply elem_of_map_to_list; assumption|].
      apply report_entry_Some. repeat split; assumption.
  - intros Hnil. rewrite Hnil in Havg. simpl in Havg. injection Havg as <-. reflexivity.
Qed.

Lemma payment_report_records_witness :
  exists rep ps',
    generate_payment_report (mk_date 2026 11 1) (mk_date 2026 11 30) Sample.paid_store
      = Ok (rep, ps')
    /\ total_payments rep = 1.
Proof.
  destruct sample_report_ok as (rep & ps' & Hrep & Hcount).
  exists rep, ps'. split; [exact Hrep|].
  destruct (payment_report_records _ _ _ _ _ Hrep) as (_ & Hn & _).
  rewrite Hn, Hcount. reflexivity.
Defined.

End PaymentStatus.

(** ** Claims without measurements, and accepted file names *)

Section EmptyClaim.

Import Py DateTime Xact.

(** A job whose summary holds no measurement is claimed all the same, from
    the 4th of a month on: the claim has no line item, the int 0 as subtotal
    and the float 0.0 as tax and total, and the payment computed from it is
    0.0. *)
Theorem format_without_measurements (e : env) (jd : job_data) :
  Assess.xactimate_summary (jd_summary jd) = [] ->
  3 < day (clock e 2%nat) <= 31 ->
  exists c,
    format_for_xactimate e jd = Ok c
    /\ line_items c = []
    /\ c_totals c = mk_totals (PInt 0) (PFloat 0.07) (PFloat 0) (PFloat 0)
    /\ Pay.calculate_contractor_payment c 0.7 = Ok (PFloat 0).
Proof.
  intros Hxs Hday. destruct (loss_date_defined e Hday) as [lost Hlost].
  unfold format_for_xactimate. cbv zeta. rewrite Hxs.
  change (build_line_items []) with (Ok ([] : list line_item)). cbn [bind].
  change (compute_totals [])
    with (Ok (mk_totals (PInt 0) (PFloat 0.07) (PFloat 0) (PFloat 0))).
  cbn [bind]. rewrite Hlost. cbn [bind].
  eexists. split; [reflexivity|]. repeat split.
Qed.

Lemma format_without_measurements_witness :
  exists c,
    format_for_xactimate (Sample.env_on 4 "c-0")
      (mk_job_data "j1" (Sample.summary_of []) []) = Ok c
    /\ line_items c = []
    /\ t_total (c_totals c) = PFloat 0.
Proof.
  destruct (format_without_measurements (Sample.env_on 4 "c-0")
              (mk_job_data "j1" (Sample.summary_of []) []))
    as (c & Hc & Hitems & Htot & _).
  - reflexivity.
  - simpl. lia.
  - exists c. split; [exact Hc|]. split; [exact Hitems|]. rewrite Htot. reflexivity.
Defined.

End EmptyClaim.

Section IntakeNames.

Import Intake.

Lemma after_last_dot_None (s : string) :
  after_last_dot s = None <-> "."%char ∉ list_ascii_of_string s.
Proof.
  induction s as [|c s IH]; cbn [after_last_dot list_ascii_of_string].
  - split; [intros _ H; apply elem_of_nil in H; contradiction | reflexivity].
  - rewrite not_elem_of_cons, <- IH.
    destruct (after_last_dot s) as [ext|].
    + split; [discriminate | intros [_ H]; discriminate].
    + destruct (Ascii.eqb_spec c ".") as [->|Hc].
      * split; [discriminate | intros [H _]; congruence].
      * split; [intros _; split; [congruence | reflexivity] | reflexivity].
Qed.

Lemma after_last_dot_append (stem ext : string) :
  after_last_dot ext = None ->
  after_last_dot (stem +:+ "." +:+ ext) = Some ext.
Proof.
  intros Hext. induction stem as [|c stem IH].
  - change ("" +:+ "." +:+ ext) with (String "." ext).
    cbn [after_last_dot]. rewrite Hext. reflexivity.
  - change (String c stem +:+ "." +:+ ext) with (String c (stem +:+ "." +:+ ext)).
    cbn [after_last_dot]. rewrite IH. reflexivity.
Qed.

Lemma after_last_dot_Some (s ext : string) :
  after_last_dot s = Some ext ->
  exists stem, s = stem +:+ "." +:+ ext /\ after_last_dot ext = None.
Proof.
  revert ext. induction s as [|c s IH]; intros ext; cbn [after_last_dot]; [discriminate|].
  destruct (after_last_dot s) as [ext'|] eqn:Hs.
  - intros [= ->]. destruct (IH ext eq_refl) as (stem & -> & Hext).
    exists (String c stem). split; [reflexivity | assumption].
  - destruct (Ascii.eqb_spec c ".") as [->|Hc]; [|discriminate].
    intros [= ->]. exists "". split; [reflexivity | assumption].
Qed.

(** A file name is accepted exactly when it has a dot and the text after
    its last dot is, in lower case, one of the four extensions: a name
    without a dot is refused, and only the last extension counts. *)
Theorem allowed_file_iff (filename : string) :
  allowed_file filename = true <->
  exists stem ext,
    filename = stem +:+ "." +:+ ext
    /\ "."%char ∉ list_ascii_of_string ext
    /\ Text.lower ext ∈ ALLOWED_EXTENSIONS.
Proof.
  unfold allowed_file. split.
  - destruct (after_last_dot filename) as [ext|] eqn:Hext; [|discriminate].
    intros Hin. apply str_in_iff in Hin.
    destruct (after_last_dot_Some _ _ Hext) as (stem & -> & Hnone).
    exists stem, ext. split; [reflexivity|]. split; [|assumption].
    apply after_last_dot_None, Hnone.
  - intros (stem & ext & -> & Hdot & Hin).
    rewrite after_last_dot_append by (apply after_last_dot_None, Hdot).
    apply str_in_iff, Hin.
Qed.

End IntakeNames.

(** ** The pipeline on its own files *)

Section Pipeline.

Import Py DateTime Xact.

(** Checked by evaluation on every integer from 0 to 4095. *)
Lemma small_ints_checked :
  all_in (fun z => is_ok (to_float (PInt z))) 0 (2 ^ 12) = true.
Proof. vm_compute. reflexivity. Qed.

Lemma small_int_convertible (z : Z) : 0 <= z < 4096 -> convertible (PInt z).
Proof.
  intros Hz. pose proof (all_in_sound _ _ _ small_ints_checked z ltac:(lia)) as H.
  cbv beta in H. unfold convertible.
  destruct (to_float (PInt z)) as [f|]; [exists f; reflexivity | discriminate].
Qed.

Lemma float_convertible (f : float) : convertible (PFloat f).
Proof. exists f. reflexivity. Qed.

Lemma choice_In {A : Type} (d : A) (seq : list A) (t : Random.tape) (i : nat) :
  seq <> [] -> In (fst (Random.choice d seq t i)) seq.
Proof.
  intros Hne. unfold Random.choice, Random.draw, Random.randbelow, Random.ret.
  cbn [fst]. apply nth_In.
  assert (0 < Z.of_nat (length seq)) by (destruct seq; [congruence | simpl; lia]).
  pose proof (Z.mod_pos_bound (t i) (Z.of_nat (length seq)) ltac:(lia)). lia.
Qed.




(** *** Priced blocks through the summary *)






(** *** Priced blocks through the formatter *)










End Pipeline.

(** ** Date of loss, approval, and generated water blocks *)

Section Dates.

Import Py DateTime Xact.

Lemma replaced_day_apart (t t' : datetime) (d : Z) :
  replace_day t d = Ok t' ->
  to_microseconds t - to_microseconds t' = (day t - d) * 86400000000.
Proof.
  unfold replace_day. destruct (_ && _); [|discriminate]. intros [= <-].
  unfold to_microseconds, ymd2ord. cbn [year month day hour minute second microsecond].
  lia.
Qed.

(** When the formatter's two readings of the clock for the date of loss
    fall on the same day of the month, the date of loss of the claim is the
    first of them moved back by exactly three days. *)
Theorem date_of_loss_three_days_before (e : env) (jd : job_data) (c : claim) :
  format_for_xactimate e jd = Ok c ->
  day (clock e 1%nat) = day (clock e 2%nat) ->
  let lost := date_of_loss (c_damage_info c) in
  to_microseconds (clock e 1%nat) - to_microseconds lost = 3 * 86400000000
  /\ sub_days (clock e 1%nat) lost = 3
  /\ day lost = day (clock e 1%nat) - 3
  /\ month lost = month (clock e 1%nat)
  /\ year lost = year (clock e 1%nat).
Proof.
  intros Hfmt Hclock lost.
  apply format_for_xactimate_Ok in Hfmt as (_ & _ & _ & _ & _ & Hloss).
  fold lost in Hloss. unfold loss_date in Hloss. rewrite <- Hclock in Hloss.
  pose proof (replaced_day_apart _ _ _ Hloss) as Hdiff.
  unfold replace_day in Hloss. destruct (_ && _); [|discriminate].
  injection Hloss as Hlost.
  assert (Hexact : to_microseconds (clock e 1%nat) - to_microseconds lost
                   = 3 * 86400000000) by lia.
  split; [exact Hexact|]. split.
  - unfold sub_days. rewrite Hexact. reflexivity.
  - rewrite <- Hlost. repeat split.
Qed.

Lemma date_of_loss_three_days_before_witness :
  exists c,
    format_for_xactimate (Sample.env_on 15 "c-1") Sample.roof_job = Ok c
    /\ date_of_loss (c_damage_info c) = Sample.noon 12.
Proof.
  destruct (format_for_xactimate (Sample.env_on 15 "c-1") Sample.roof_job)
    as [c|] eqn:Hc; [|discriminate Hc].
  exists c. split; [reflexivity|].
  destruct (date_of_loss_three_days_before _ _ _ Hc eq_refl) as (_ & _ & Hd & Hm & Hy).
  pose proof Hc as Hc'.
  apply format_for_xactimate_Ok in Hc' as (_ & _ & _ & _ & _ & Hloss).
  unfold loss_date, replace_day in Hloss. cbn in Hloss. injection Hloss as <-.
  reflexivity.
Defined.

(** *** Approval once reached *)

(** An approved result stays approved at every later check, with the same
    payout; but its approval date is the time of the last check made at or
    after the processing estimate, not the time of the first. *)
Theorem approval_is_restamped (now now' : datetime) (r : submission_result) :
  estimated_processing_days r <= sub_days now (submission_time r) ->
  let r1 := update_status now r in
  let r2 := update_status now' r1 in
  r_status r1 = "Approved"
  /\ approval_date r1 = Some now
  /\ r_status r2 = "Approved"
  /\ payout_amount r2 = payout_amount r1
  /\ approval_date r2 =
       Some (if estimated_processing_days r <=? sub_days now' (submission_time r)
             then now' else now).
Proof.
  intros Hdue r1 r2. subst r1 r2. unfold update_status.
  destruct (estimated_processing_days r <=? sub_days now (submission_time r)) eqn:H1;
    [|apply Z.leb_gt in H1; lia].
  cbn [estimated_processing_days submission_time estimated_payout r_status
       approval_date payout_amount].
  destruct (estimated_processing_days r <=? sub_days now' (submission_time r));
    repeat split.
Qed.

Lemma approval_is_restamped_witness :
  let r1 := update_status (Sample.noon 20) (fst Sample.submitted) in
  let r2 := update_status (Sample.noon 25) r1 in
  approval_date r1 = Some (Sample.noon 20)
  /\ r_status r2 = "Approved"
  /\ approval_date r2 = Some (Sample.noon 25).
Proof.
  destruct (approval_is_restamped (Sample.noon 20) (Sample.noon 25) (fst Sample.submitted))
    as (_ & H1 & H2 & _ & H3).
  - vm_compute. discriminate.
  - cbv zeta. split; [exact H1|]. split; [exact H2|]. rewrite H3. reflexivity.
Defined.

End Dates.

Section AssessorWater.

Import Py Xact.

Lemma small_int_to_float (z : Z) :
  0 <= z < 4096 -> to_float (PInt z) = Ok (float_of_Z z).
Proof.
  intros Hz. destruct (small_int_convertible z Hz) as [f Hf].
  unfold to_float in *. destruct (is_infinity (float_of_Z z)); congruence.
Qed.

(** For a water block generated by the assessor (a whole number of square
    feet between 100 and 1000, a category from 1 to 3), the line total of
    the water item is exactly its quantity times its unit price. *)
Theorem assessor_water_total_exact (t : Random.tape) (i : nat) :
  exists blk item area cat,
    fst (Assess.measure "water" t i) = Some blk
    /\ Assess.affected_area_sqft blk = Some (PInt area)
    /\ Assess.category blk = Some (PInt cat)
    /\ 100 <= area <= 1000 /\ 1 <= cat <= 3
    /\ water_items [("water", [blk])] = Ok [item]
    /\ quantity item = PInt area
    /\ unit_price item = PFloat (2.5 * float_of_Z cat)
    /\ mul (quantity item) (unit_price item) = Ok (total item).
Proof.
  unfold Assess.measure. simpl (String.eqb _ _). cbv iota. unfold Random.draw.
  pose proof (randint_range 100 1000 t i ltac:(lia)) as Ha.
  destruct (Random.randint 100 1000 t i) as [a j]. cbn [fst] in Ha.
  destruct (Random.randint 1 24 t j) as [d j1].
  pose proof (choice_In 0 [1; 2; 3] t j1 ltac:(discriminate)) as Hc.
  destruct (Random.choice 0 [1; 2; 3] t j1) as [c j2]. cbn [fst] in Hc.
  assert (Hcat : 1 <= c <= 3) by (simpl in Hc; lia).
  cbn [fst Random.ret].
  pose proof (to_float_category c Hcat) as Hfc.
  pose proof (small_int_to_float a ltac:(lia)) as Hfa.
  assert (Hprice : mul (PFloat 2.5) (PInt c) = Ok (PFloat (2.5 * float_of_Z c))).
  { cbn [mul bind]. unfold to_float in Hfc |- *. rewrite Hfc. reflexivity. }
  assert (Htotal : mul (PFloat (float_of_Z a * 2.5)) (PInt c)
                   = Ok (PFloat (float_of_Z a * 2.5 * float_of_Z c))).
  { cbn [mul bind]. unfold to_float in Hfc |- *. rewrite Hfc. reflexivity. }
  eexists _, _, a, c. split; [reflexivity|].
  split; [reflexivity|]. split; [reflexivity|]. split; [assumption|].
  split; [assumption|].
  unfold water_items.
  change (Dict.get "water" [("water", [Assess.water_block (PInt a) (PInt d) (PInt c)])])
    with (Some [Assess.water_block (PInt a) (PInt d) (PInt c)]).
  cbn [first_block bind Assess.category Assess.affected_area_sqft Assess.water_block
       Assess.depth_inches default from_option id].
  rewrite Hprice. cbn [bind]. rewrite (mul_by_float (PInt a) _ 2.5 Hfa). cbn [bind].
  rewrite Htotal. cbn [bind].
  split; [reflexivity|]. cbn [quantity unit_price total].
  split; [reflexivity|]. split; [reflexivity|].
  rewrite (mul_by_float (PInt a) _ _ Hfa).
  rewrite (water_totals_agree c a Hcat ltac:(lia)). reflexivity.
Qed.

End AssessorWater.

(** ** From photos to claims *)

Section FromPhotos.

Import Py DateTime Xact.

(** *** Nothing to pay right after the submissions *)

Lemma submit_each_results_submitted (jobs : list string) :
  forall envs i rs cs f r,
    (submit_each envs i jobs rs cs).2 !! f = Some (Some (DocResult r)) ->
    cs !! f = Some (Some (DocResult r)) \/ r_status r = "Submitted".
Proof.
  induction jobs as [|job rest IH]; intros envs i rs cs f r Hf; [left; exact Hf|].
  destruct (submit_each_step envs i job rest rs cs) as [Hs|(r0 & c & _ & Hst & Hs)];
    rewrite Hs in Hf.
  - apply (IH _ _ _ _ _ _ Hf).
  - specialize (IH envs (S i) rs
                  (<[result_file job := Some (DocResult r0)]>
                     (<[claim_file job := Some (DocClaim c)]> cs)) f r).
    destruct (submit_each envs (S i) rest rs _) as [results cs''].
    cbn [snd] in *. destruct (IH Hf) as [Hold|Hsub]; [|right; exact Hsub].
    rewrite lookup_insert in Hold. case_decide.
    + right. congruence.
    + rewrite lookup_insert in Hold. case_decide; [discriminate|]. left. exact Hold.
Qed.

(** The batch of submissions approves nothing: when no stored result is
    approved before it, the payment listing is empty right after it,
    whatever was submitted.  A payment needs a later status check. *)
Theorem nothing_payable_after_submission (envs : nat -> env)
    (rs : Assess.report_store) (cs : claims_store) (ps : Pay.payment_store) :
  (forall f r, cs !! f = Some (Some (DocResult r)) -> r_status r <> "Approved") ->
  let '(_, cs') := process_all_jobs envs rs cs in
  Pay.get_approved_claims cs' ps = [].
Proof.
  intros Hnone. unfold process_all_jobs.
  pose proof (submit_each_results_submitted (get_ready_jobs rs cs) envs 0%nat rs cs) as H.
  destruct (submit_each envs 0%nat (get_ready_jobs rs cs) rs cs) as [results cs'].
  cbn [snd] in H. unfold Pay.get_approved_claims. apply omap_none.
  intros [f parsed] Hin. apply elem_of_map_to_list in Hin.
  destruct (Pay.approved_entry cs' ps (f, parsed)) as [info|] eqn:Hentry; [|reflexivity].
  exfalso. apply approved_entry_Some in Hentry as (_ & -> & Hst & _).
  destruct (H _ _ Hin) as [Hold|Hsub].
  - apply (Hnone _ _ Hold Hst).
  - rewrite Hst in Hsub. discriminate.
Qed.

Lemma nothing_payable_after_submission_witness :
  exists results cs',
    process_all_jobs (fun _ => Sample.env_on 4 "c-1") Sample.summarised_store ∅
      = (results, cs')
    /\ Pay.get_approved_claims cs' ∅ = [].
Proof.
  pose proof (nothing_payable_after_submission (fun _ => Sample.env_on 4 "c-1")
                Sample.summarised_store ∅ ∅) as H.
  destruct (process_all_jobs (fun _ => Sample.env_on 4 "c-1") Sample.summarised_store ∅)
    as [results cs'].
  exists results, cs'. split; [reflexivity|]. apply H.
  intros f r Hf. rewrite lookup_empty in Hf. discriminate.
Defined.

End FromPhotos.

Section PhotosToClaims.

Import Py Assess.

(** *** From the batch of assessments to the summary *)

Lemma nonempty_elem {A : Type} (l : list A) : l <> [] <-> exists x, x ∈ l.
Proof.
  destruct l as [|x l]; split.
  - congruence.
  - intros [x Hx]. apply elem_of_nil in Hx. contradiction.
  - intros _. exists x. apply list_elem_of_here.
  - discriminate.
Qed.

(** Saving an assessment keeps every job that has a readable file with
    one, and gives one to the job of the assessment. *)
Lemma save_assessment_readable (a : assessment) (rs : report_store) (job : string) :
  job = a_job_id a \/ get_job_assessments rs job <> [] ->
  get_job_assessments (save_assessment a rs) job <> [].
Proof.
  intros H. apply nonempty_elem. unfold save_assessment.
  destruct (decide (job = a_job_id a)) as [->|Hne].
  - exists (DocAssessment a). apply elem_of_job_assessments.
    eexists _, _. split; [apply lookup_insert_eq|].
    split; [apply lookup_insert_eq | apply endswith_append].
  - destruct H as [?|H]; [contradiction|].
    apply nonempty_elem in H as [d Hd]. exists d.
    apply elem_of_job_assessments in Hd as (dir & f & Hdir & Hf & Hjson).
    apply elem_of_job_assessments. exists dir, f.
    rewrite lookup_insert_ne by congruence. split; [assumption|]. split; assumption.
Qed.

(** Saving an assessment returned by [analyze_photo] keeps the report
    store one of the pipeline's own. *)
Lemma save_assessment_made (a : assessment) (rs : report_store) :
  assessor_made (DocAssessment a) ->
  (forall job d, d ∈ get_job_assessments rs job -> assessor_made d) ->
  forall job d, d ∈ get_job_assessments (save_assessment a rs) job -> assessor_made d.
Proof.
  intros Ha Hrs job d Hd. unfold save_assessment in Hd.
  apply elem_of_job_assessments in Hd as (dir & f & Hdir & Hf & Hjson).
  destruct (decide (job = a_job_id a)) as [->|Hne].
  - rewrite lookup_insert_eq in Hdir. injection Hdir as <-.
    rewrite lookup_insert in Hf. case_decide; [congruence|].
    apply (Hrs (a_job_id a)). apply elem_of_job_assessments.
    destruct (rs !! a_job_id a) as [dir|]; cbn [default from_option id] in Hf.
    + exists dir, f. split; [reflexivity|]. split; assumption.
    + rewrite lookup_empty in Hf. discriminate.
  - rewrite lookup_insert_ne in Hdir by congruence.
    apply (Hrs job). apply elem_of_job_assessments. exists dir, f.
    split; [assumption|]. split; assumption.
Qed.

Lemma analyze_each_made_step (envs : nat -> env) (i : nat) (pi : photo_info)
    (rest : list photo_info) (ps : photo_store) (rs : report_store) :
  analyze_each envs i (pi :: rest) ps rs = analyze_each envs (S i) rest ps rs
  \/ exists a,
       assessor_made (DocAssessment a)
       /\ analyze_each envs i (pi :: rest) ps rs =
          (let '(results, ps'', rs'') :=
             analyze_each envs (S i) rest (update_metadata pi a ps)
               (save_assessment a rs) in
           (a :: results, ps'', rs'')).
Proof.
  cbn [analyze_each].
  destruct (analyze_photo (envs i) pi ps rs) as [[[a ps'] rs']|] eqn:Hrun.
  - right. exists a. split; [cbn [assessor_made]; eauto 10|].
    apply analyze_photo_Ok in Hrun as (reported & _ & _ & _ & _ & _ & -> & ->).
    reflexivity.
  - left. reflexivity.
Qed.

(** After the batch, every job of a returned assessment has a readable
    file, and a store of the pipeline's own files is still one. *)
Lemma analyze_each_reports (photos : list photo_info) :
  forall envs i ps rs,
    let '(results, _, rs') := analyze_each envs i photos ps rs in
    (forall job, (exists a, a ∈ results /\ job = a_job_id a)
                 \/ get_job_assessments rs job <> [] ->
                 get_job_assessments rs' job <> [])
    /\ ((forall job d, d ∈ get_job_assessments rs job -> assessor_made d) ->
        forall job d, d ∈ get_job_assessments rs' job -> assessor_made d).
Proof.
  induction photos as [|pi rest IH]; intros envs i ps rs.
  - cbn [analyze_each]. split; [|auto].
    intros job [(a & Ha & _)|H]; [apply elem_of_nil in Ha; contradiction | exact H].
  - destruct (analyze_each_made_step envs i pi rest ps rs) as [->|(a & Ha & ->)].
    + apply IH.
    + specialize (IH envs (S i) (update_metadata pi a ps) (save_assessment a rs)).
      destruct (analyze_each envs (S i) rest _ _) as [[results ps''] rs''].
      destruct IH as [IHne IHmade]. split.
      * intros job [(a' & Ha' & Hjob)|H].
        -- apply elem_of_cons in Ha' as [->|Ha'].
           ++ apply IHne. right. apply save_assessment_readable. left. exact Hjob.
           ++ apply IHne. left. exists a'. split; assumption.
        -- apply IHne. right. apply save_assessment_readable. right. exact H.
      * intros Hrs. apply IHmade. apply save_assessment_made; assumption.
Qed.

Lemma sample_batch_ok :
  exists a ps' rs',
    process_pending_photos (fun _ => Sample.env_on 3 "a-1")
      (Sample.uploads (HintStr "Roof") None) ∅ = ([a], ps', rs')
    /\ a_job_id a = "j1".
Proof.
  assert (H : match process_pending_photos (fun _ => Sample.env_on 3 "a-1")
                      (Sample.uploads (HintStr "Roof") None) ∅ with
              | ([a], _, _) => String.eqb (a_job_id a) "j1"
              | _ => false
              end = true) by (vm_compute; reflexivity).
  revert H.
  destruct (process_pending_photos _ _ ∅) as [[[|a [|]] ps'] rs'];
    try discriminate.
  intros H. apply String.eqb_eq in H. exists a, ps', rs'. split; [reflexivity | exact H].
Qed.

(** Every job for which the batch of assessments returned an assessment
    can be summarised right after it: the summary is returned and saved,
    with its readiness flag set. *)
Theorem assessed_photos_are_summarised (envs : nat -> env) (e : env)
    (ps : photo_store) (rs : report_store) :
  let '(results, _, rs') := process_pending_photos envs ps rs in
  forall a, a ∈ results ->
    exists s rs'',
      generate_job_summary e rs' (a_job_id a) = Ok (Some (s, rs''))
      /\ xactimate_ready s = true.
Proof.
  unfold process_pending_photos.
  pose proof (analyze_each_reports (get_pending_photos ps) envs 0%nat ps rs) as H.
  destruct (analyze_each envs 0%nat (get_pending_photos ps) ps rs)
    as [[results ps'] rs'].
  destruct H as [Hne _]. intros a Ha.
  destruct (summary_of_assessments e rs' (a_job_id a)) as (s & Hsum & Hflag & _).
  - apply Hne. left. exists a. split; [assumption | reflexivity].
  - eexists s, _. split; [exact Hsum | exact Hflag].
Qed.

Lemma assessed_photos_are_summarised_witness :
  exists a ps' rs' s rs'',
    process_pending_photos (fun _ => Sample.env_on 3 "a-1")
      (Sample.uploads (HintStr "Roof") None) ∅ = ([a], ps', rs')
    /\ generate_job_summary (Sample.env_on 3 "") rs' "j1" = Ok (Some (s, rs''))
    /\ xactimate_ready s = true.
Proof.
  destruct sample_batch_ok as (a & ps' & rs' & Hbatch & Hjob).
  pose proof (assessed_photos_are_summarised (fun _ => Sample.env_on 3 "a-1")
                (Sample.env_on 3 "") (Sample.uploads (HintStr "Roof") None) ∅) as H.
  rewrite Hbatch in H.
  destruct (H a (list_elem_of_here _ _)) as (s & rs'' & Hsum & Hflag).
  rewrite Hjob in Hsum. exists a, ps', rs', s, rs''. repeat split; assumption.
Defined.



End PhotosToClaims.

Section WholePipeline.

Import Py DateTime Xact.




End WholePipeline.
